(** * ChatManager: the thread/message synchronisation core

    A shallow embedding of [src/app/components/ChatManager.tsx].

    The component keeps five pieces of React state ([threads], [messages],
    [activeThreadId], [isLoading], [error]) and talks to one external
    collaborator, [nhost.graphql.request].  Every function of the component
    is an [async] function: it runs synchronously up to an [await], is
    suspended there, and is resumed with the gateway's answer.  The embedding
    keeps that shape: a component function is a finite tree of effects
    ([Prog]), whose nodes are the state setters, [new Date()], and the
    awaited gateway requests; the tree is then run either alone against a
    list of answers ([exec]) or inside the component's event loop, where
    several suspended functions are in flight at once ([Machine]). *)

From Stdlib Require Import Ascii String List ZArith NArith Bool Lia.
From Stdlib Require DecimalString DecimalZ DecimalPos.
From ExtLib Require Import Structures.Monad Structures.MonadExc.
Import ListNotations.
Import MonadNotation.
Local Open Scope string_scope.
Local Open Scope list_scope.
Local Open Scope monad_scope.

(** ** JavaScript strings and truthiness *)

(** [content] is the only string the component looks into (it is trimmed),
    so it is kept as its sequence of UTF-16 code units.  Identifiers, titles
    and timestamps are only copied and compared, and stay [string]s. *)
Definition jsstring := list N.

(** ECMAScript WhiteSpace and LineTerminator code points, the ones
    [String.prototype.trim] strips. *)
Definition is_white_space (c : N) : bool :=
  ((9 <=? c) && (c <=? 13) ||
   (c =? 32) || (c =? 160) || (c =? 5760) ||
   (8192 <=? c) && (c <=? 8202) ||
   (c =? 8232) || (c =? 8233) || (c =? 8239) || (c =? 8287) ||
   (c =? 12288) || (c =? 65279))%N.

Fixpoint trimStart (s : jsstring) : jsstring :=
  match s with
  | c :: s' => if is_white_space c then trimStart s' else s
  | [] => []
  end.

Definition trimEnd (s : jsstring) : jsstring := rev (trimStart (rev s)).

Definition trim (s : jsstring) : jsstring := trimEnd (trimStart s).

(** The code units of an ASCII literal. *)
Fixpoint units (s : string) : jsstring :=
  match s with
  | EmptyString => []
  | String c s' => N_of_ascii c :: units s'
  end.

(** [present v] is the string held by [v] when [v] is truthy: [null],
    [undefined] and the empty string are all falsy. *)
Definition present (v : option string) : option string :=
  match v with
  | Some s => if (s =? "")%string then None else Some s
  | None => None
  end.

(** Truthiness of a (trimmed) content string. *)
Definition nonempty (s : jsstring) : bool :=
  match s with [] => false | _ :: _ => true end.

(** ** Data model (lines 7-22) *)

Module Message.
Record t : Type := mk {
  id : string;
  thread_id : string;
  user_id : string;
  is_user : bool;
  content : jsstring;
  created_at : string
}.
End Message.

Module Thread.
Record t : Type := mk {
  id : string;
  user_id : string;
  title : string;
  created_at : string;
  updated_at : string
}.

(** [{ ...thread, updated_at: ts }] *)
Definition with_updated_at (thread : t) (ts : string) : t :=
  mk (id thread) (user_id thread) (title thread) (created_at thread) ts.
End Thread.

Module User.
(** What [useUserData()] returns; the component reads [id] only. *)
Record t : Type := mk { id : string }.
End User.

(** [user?.id] *)
Definition user_id_of (user : option User.t) : option string :=
  option_map User.id user.

(** ** The gateway (lines 24-82) *)

Inductive Request : Type :=
| GET_THREADS (user_id : string)
| GET_MESSAGES (thread_id : string)
| CREATE_THREAD (user_id title : string)
| CREATE_MESSAGE (thread_id user_id : string) (is_user : bool)
                 (content : jsstring)
| UPDATE_THREAD_TIMESTAMP (thread_id : string).

Module Gql.
(** The [data] object of an answer.  It is untyped JSON on the wire: any
    of the fields the component reads may be missing. *)
Record Data : Type := mkData {
  threads : option (list Thread.t);
  messages : option (list Message.t);
  insert_threads_one : option Thread.t;
  insert_messages_one : option Message.t
}.

(** [{ data, error }]; [error] is only tested for truthiness. *)
Record Response : Type := mkResponse {
  data : option Data;
  error : option string
}.
End Gql.

(** How an awaited request ends: the promise is fulfilled with an answer, or
    it is rejected (transport failure) and the [await] throws. *)
Inductive Outcome : Type :=
| Fulfilled (r : Gql.Response)
| Rejected.

(** ** Component state (lines 99-103) *)

Record State : Type := mkState {
  threads : list Thread.t;
  messages : list Message.t;
  activeThreadId : option string;
  isLoading : bool;
  error : option string
}.

(** [useState] initial values. *)
Definition initial_state : State := mkState [] [] None true None.

(** The state setters, and [console.error] (its label only).  A setter
    called with a value is the constant updater. *)
Inductive Action : Type :=
| setThreads (f : list Thread.t -> list Thread.t)
| setMessages (f : list Message.t -> list Message.t)
| setActiveThreadId (v : option string)
| setIsLoading (b : bool)
| setError (e : option string)
| console_error (label : string).

(** ** Asynchronous functions as effect trees *)

Inductive Prog (R : Type) : Type :=
| Ret (r : R)
| Throw
| Do (a : Action) (k : Prog R)
| NewDate (k : Z -> Prog R)
| Await (q : Request) (k : Outcome -> Prog R).

Arguments Ret {R} r.
Arguments Throw {R}.
Arguments Do {R} a k.
Arguments NewDate {R} k.
Arguments Await {R} q k.

Fixpoint Prog_bind {A B : Type} (p : Prog A) (f : A -> Prog B) : Prog B :=
  match p with
  | Ret a => f a
  | Throw => Throw
  | Do a k => Do a (Prog_bind k f)
  | NewDate k => NewDate (fun t => Prog_bind (k t) f)
  | Await q k => Await q (fun o => Prog_bind (k o) f)
  end.

(** [try { p } catch (err) { h }] *)
Fixpoint try_catch {R : Type} (p : Prog R) (h : Prog R) : Prog R :=
  match p with
  | Ret r => Ret r
  | Throw => h
  | Do a k => Do a (try_catch k h)
  | NewDate k => NewDate (fun t => try_catch (k t) h)
  | Await q k => Await q (fun o => try_catch (k o) h)
  end.

(** [try { p } finally { f }] *)
Fixpoint try_finally {R : Type} (p : Prog R) (f : Prog unit) : Prog R :=
  match p with
  | Ret r => Prog_bind f (fun _ => Ret r)
  | Throw => Prog_bind f (fun _ => Throw)
  | Do a k => Do a (try_finally k f)
  | NewDate k => NewDate (fun t => try_finally (k t) f)
  | Await q k => Await q (fun o => try_finally (k o) f)
  end.

#[global] Instance Monad_Prog : Monad Prog :=
  {| ret := @Ret; bind := @Prog_bind |}.

#[global] Instance Exception_Prog : MonadExc unit Prog :=
  {| raise := fun _ _ => Throw;
     catch := fun _ p h => try_catch p (h tt) |}.

Definition act (a : Action) : Prog unit := Do a (Ret tt).

Definition new_Date : Prog Z := NewDate Ret.

(** [await nhost.graphql.request(q, ...)]: the answer, or a throw. *)
Definition request (q : Request) : Prog Gql.Response :=
  Await q (fun o => match o with
                    | Fulfilled r => Ret r
                    | Rejected => Throw
                    end).

(** ** Running one function *)

(** The component's state together with what its environment observes: the
    requests sent to the gateway (oldest first), the console, the clock. *)
Record World : Type := mkWorld {
  state : State;
  trace : list Request;
  console : list string;
  now : Z
}.

Definition apply_action (a : Action) (w : World) : World :=
  let s := state w in
  match a with
  | setThreads f =>
      mkWorld (mkState (f (threads s)) (messages s) (activeThreadId s)
                       (isLoading s) (error s))
              (trace w) (console w) (now w)
  | setMessages f =>
      mkWorld (mkState (threads s) (f (messages s)) (activeThreadId s)
                       (isLoading s) (error s))
              (trace w) (console w) (now w)
  | setActiveThreadId v =>
      mkWorld (mkState (threads s) (messages s) v (isLoading s) (error s))
              (trace w) (console w) (now w)
  | setIsLoading b =>
      mkWorld (mkState (threads s) (messages s) (activeThreadId s) b (error s))
              (trace w) (console w) (now w)
  | setError e =>
      mkWorld (mkState (threads s) (messages s) (activeThreadId s)
                       (isLoading s) e)
              (trace w) (console w) (now w)
  | console_error label =>
      mkWorld s (trace w) (console w ++ [label]) (now w)
  end.

(** Sending a request appends it to the trace. *)
Definition issue (q : Request) (w : World) : World :=
  mkWorld (state w) (trace w ++ [q]) (console w) (now w).

(** An answer arrives at some wall-clock time.  The clock is read as that
    time by every [new Date()] up to the next [await]. *)
Record Arrival : Type := mkArrival {
  at_ms : Z;
  outcome : Outcome
}.

Definition set_clock (t : Z) (w : World) : World :=
  mkWorld (state w) (trace w) (console w) t.

Definition arrive (a : Arrival) (w : World) : World := set_clock (at_ms a) w.

(** How far the promise of an [async] call has got. *)
Inductive Status (R : Type) : Type :=
| Returned (r : R)
| Uncaught
| Suspended.

Arguments Returned {R} r.
Arguments Uncaught {R}.
Arguments Suspended {R}.

(** [exec p arrivals w] runs [p] from [w]; each [await] sends its request
    and takes the next arrival.  With no arrival left the request stays
    pending and the call is suspended there. *)
Fixpoint exec {R : Type} (p : Prog R) (arrivals : list Arrival) (w : World)
  : World * Status R :=
  match p with
  | Ret r => (w, Returned r)
  | Throw => (w, Uncaught)
  | Do a k => exec k arrivals (apply_action a w)
  | NewDate k => exec (k (now w)) arrivals w
  | Await q k =>
      match arrivals with
      | [] => (issue q w, Suspended)
      | a :: rest => exec (k (outcome a)) rest (arrive a (issue q w))
      end
  end.

(** ** The component (lines 97-291) *)

(** [o?.f] and [v || []] *)
Definition chain {A B : Type} (o : option A) (f : A -> option B) : option B :=
  match o with
  | Some a => f a
  | None => None
  end.

Definition or_empty {A : Type} (v : option (list A)) : list A :=
  match v with
  | Some l => l
  | None => []
  end.

Section Component.

(** The two renderings of a [Date] the component uses depend on the
    browser (locale data, time zone): [now.toLocaleString("en-US",
    { month: "short", day: "numeric", hour: "numeric", minute: "2-digit",
    hour12: true })] and [new Date().toISOString()]. *)
Variable toLocaleString : Z -> string.
Variable toISOString : Z -> string.

(** A function of the component closes over the [user] and the
    [activeThreadId] of the render that created it; they are parameters
    here (and shadow the state field of the same name). *)

(** Lines 107-137. *)
Definition fetchThreads (user : option User.t)
    (activeThreadId : option string) : Prog unit :=
  match present (user_id_of user) with
  | None => ret tt
  | Some uid =>
      try_finally
        (catch
           (act (setIsLoading true) ;;
            act (setError None) ;;
            r <- request (GET_THREADS uid) ;;
            match Gql.error r with
            | Some _ =>
                act (console_error "GraphQL Error:") ;;
                act (setError (Some
                  "Failed to fetch threads. Make sure GraphQL permissions are set up correctly."))
            | None =>
                let fetchedThreads :=
                  or_empty (chain (Gql.data r) Gql.threads) in
                act (setThreads (fun _ => fetchedThreads)) ;;
                match present activeThreadId, fetchedThreads with
                | None, first :: _ =>
                    act (setActiveThreadId (Some (Thread.id first)))
                | _, _ => ret tt
                end
            end)
           (fun _ =>
              act (console_error "Fetch Error:") ;;
              act (setError (Some "Failed to connect to the database."))))
        (act (setIsLoading false))
  end.

(** Lines 146-167. *)
Definition fetchMessages (activeThreadId : option string) : Prog unit :=
  match present activeThreadId with
  | None => act (setMessages (fun _ => []))
  | Some tid =>
      catch
        (r <- request (GET_MESSAGES tid) ;;
         match Gql.error r with
         | Some _ =>
             act (console_error "GraphQL Error:") ;;
             act (setError (Some "Failed to fetch messages."))
         | None =>
             act (setMessages
                    (fun _ => or_empty (chain (Gql.data r) Gql.messages)))
         end)
        (fun _ =>
           act (console_error "Fetch Error:") ;;
           act (setError (Some "Failed to fetch messages.")))
  end.

(** Lines 172-210.  Every path that leaves the [try] block without a
    [return] reaches the final [return null]. *)
Definition createThread (user : option User.t) : Prog (option string) :=
  match present (user_id_of user) with
  | None => ret None
  | Some uid =>
      catch
        (now <- new_Date ;;
         let title := toLocaleString now in
         r <- request (CREATE_THREAD uid title) ;;
         match Gql.error r with
         | Some _ =>
             act (console_error "GraphQL Error:") ;;
             act (setError (Some "Failed to create thread.")) ;;
             ret None
         | None =>
             match chain (Gql.data r) Gql.insert_threads_one with
             | Some newThread =>
                 act (setThreads (fun prev => newThread :: prev)) ;;
                 act (setActiveThreadId (Some (Thread.id newThread))) ;;
                 act (setMessages (fun _ => [])) ;;
                 ret (Some (Thread.id newThread))
             | None => ret None
             end
         end)
        (fun _ =>
           act (console_error "Create Thread Error:") ;;
           act (setError (Some "Failed to create thread.")) ;;
           ret None)
  end.

(** Lines 212-214. *)
Definition selectThread (threadId : string) : Prog unit :=
  act (setActiveThreadId (Some threadId)).

(** The updater of lines 263-269.  [new Date()] is read once, when the
    updater is handed to [setThreads]. *)
Definition touch_thread (tid : string) (ts : string)
    (prev : list Thread.t) : list Thread.t :=
  map (fun thread =>
         if (Thread.id thread =? tid)%string
         then Thread.with_updated_at thread ts
         else thread)
      prev.

(** Lines 216-275. *)
Definition sendMessage (user : option User.t)
    (activeThreadId : option string) (content : jsstring) : Prog unit :=
  match present (user_id_of user), present activeThreadId,
        nonempty (trim content) with
  | Some uid, Some tid, true =>
      catch
        (userMessageAnswer <-
           request (CREATE_MESSAGE tid uid true (trim content)) ;;
         match Gql.error userMessageAnswer with
         | Some _ =>
             act (console_error "GraphQL Error:") ;;
             act (setError (Some "Failed to send message."))
         | None =>
             botMessageAnswer <-
               request (CREATE_MESSAGE tid uid false (trim content)) ;;
             match Gql.error botMessageAnswer with
             | Some _ =>
                 act (console_error "GraphQL Error:") ;;
                 act (setError (Some "Failed to create bot response."))
             | None =>
                 _ <- request (UPDATE_THREAD_TIMESTAMP tid) ;;
                 match chain (Gql.data userMessageAnswer)
                             Gql.insert_messages_one,
                       chain (Gql.data botMessageAnswer)
                             Gql.insert_messages_one with
                 | Some userMessage, Some botMessage =>
                     act (setMessages
                            (fun prev => prev ++ [userMessage; botMessage])) ;;
                     now <- new_Date ;;
                     act (setThreads (touch_thread tid (toISOString now)))
                 | _, _ => ret tt
                 end
             end
         end)
        (fun _ =>
           act (console_error "Send Message Error:") ;;
           act (setError (Some "Failed to send message.")))
  | _, _, _ => ret tt
  end.

(** ** The event loop of the mounted component *)

(** Several calls can be suspended at once.  Each pending request holds a
    ticket, and carries the rest of the function that awaits it. *)
Record Pending : Type := mkPending {
  ticket : nat;
  awaited : Request;
  resume : Outcome -> Prog unit
}.

Record Machine : Type := mkMachine {
  world : World;
  current_user : option User.t;
  in_flight : list Pending;
  next_ticket : nat;
  (** [user?.id] and [activeThreadId] as of the last committed render;
      [None] before the first one. *)
  rendered : option (option string * option string)
}.

(** Run a call up to its first [await] (or to its end).  A promise that
    rejects uncaught has no observer in the component. *)
Fixpoint start (p : Prog unit) (m : Machine) : Machine :=
  match p with
  | Ret _ => m
  | Throw => m
  | Do a k =>
      start k (mkMachine (apply_action a (world m)) (current_user m)
                         (in_flight m) (next_ticket m) (rendered m))
  | NewDate k => start (k (now (world m))) m
  | Await q k =>
      mkMachine (issue q (world m)) (current_user m)
                (in_flight m ++ [mkPending (next_ticket m) q k])
                (S (next_ticket m)) (rendered m)
  end.

(** Take the pending request with the given ticket out of the list. *)
Fixpoint take_ticket (n : nat) (l : list Pending)
  : option (Pending * list Pending) :=
  match l with
  | [] => None
  | p :: rest =>
      if Nat.eqb (ticket p) n then Some (p, rest)
      else match take_ticket n rest with
           | Some (p', rest') => Some (p', p :: rest')
           | None => None
           end
  end.

Definition same_dep (a b : option string) : bool :=
  match a, b with
  | Some x, Some y => (x =? y)%string
  | None, None => true
  | _, _ => false
  end.

(** After a render is committed, the effects whose dependencies changed
    run, in source order: lines 106-142 on [[user?.id, activeThreadId]],
    lines 145-170 on [[activeThreadId]]. *)
Definition commit (m : Machine) : Machine :=
  let user := current_user m in
  let uid := user_id_of user in
  let tid := activeThreadId (state (world m)) in
  let user_changed :=
    match rendered m with
    | Some (u, _) => negb (same_dep u uid)
    | None => true
    end in
  let thread_changed :=
    match rendered m with
    | Some (_, t) => negb (same_dep t tid)
    | None => true
    end in
  let m1 :=
    if user_changed || thread_changed
    then match present uid with
         | Some _ => start (fetchThreads user tid) m
         | None => m
         end
    else m in
  let m2 := if thread_changed then start (fetchMessages tid) m1 else m1 in
  mkMachine (world m2) (current_user m2) (in_flight m2) (next_ticket m2)
            (Some (uid, tid)).

Inductive Event : Type :=
| UserData (user : option User.t)
| Tick (t : Z)
| Click_createThread
| Click_selectThread (threadId : string)
| Click_sendMessage (content : jsstring)
| Resolve (n : nat) (a : Arrival).

Definition handle (e : Event) (m : Machine) : Machine :=
  let user := current_user m in
  let tid := activeThreadId (state (world m)) in
  match e with
  | UserData u =>
      mkMachine (world m) u (in_flight m) (next_ticket m) (rendered m)
  | Tick t =>
      mkMachine (set_clock t (world m)) (current_user m)
                (in_flight m) (next_ticket m) (rendered m)
  | Click_createThread => start (createThread user ;; ret tt) m
  | Click_selectThread threadId => start (selectThread threadId) m
  | Click_sendMessage content => start (sendMessage user tid content) m
  | Resolve n a =>
      match take_ticket n (in_flight m) with
      | Some (p, rest) =>
          start (resume p (outcome a))
                (mkMachine (arrive a (world m)) (current_user m) rest
                           (next_ticket m) (rendered m))
      | None => m
      end
  end.

Definition step (m : Machine) (e : Event) : Machine := commit (handle e m).

Definition run (m : Machine) (events : list Event) : Machine :=
  fold_left step events m.

(** The component as first rendered at time [t0]. *)
Definition mount (user : option User.t) (t0 : Z) : Machine :=
  commit (mkMachine (mkWorld initial_state [] [] t0) user [] 0 None).

End Component.

(** ** Vocabulary of the properties *)

(** A request fails when the gateway reports an error or the transport
    rejects it. *)
Definition failed (o : Outcome) : bool :=
  match o with
  | Fulfilled r => match Gql.error r with Some _ => true | None => false end
  | Rejected => true
  end.

(** [data?.insert_messages_one] of an answer: the created row, if any. *)
Definition created_message (o : Outcome) : option Message.t :=
  match o with
  | Fulfilled r => chain (Gql.data r) Gql.insert_messages_one
  | Rejected => None
  end.

(** Every pending ticket was handed out already. *)
Definition tickets_fresh (m : Machine) : Prop :=
  Forall (fun p => ticket p < next_ticket m) (in_flight m).

(** The request a ticket stands for, while it is pending. *)
Definition pending_request (n : nat) (m : Machine) : option Request :=
  option_map (fun pr => awaited (fst pr)) (take_ticket n (in_flight m)).

(** The last render saw the current user and the current active thread. *)
Definition committed (m : Machine) : Prop :=
  rendered m =
    Some (user_id_of (current_user m), activeThreadId (state (world m))).

(** The message set an error-free answer to GetMessages installs:
    [data?.messages || []]. *)
Definition listed (r : Gql.Response) : list Message.t :=
  or_empty (chain (Gql.data r) Gql.messages).

(** A suspended [fetchMessages]: resumed with an error-free answer, it
    replaces the message set by what the answer lists. *)
Definition installs_answer (k : Outcome -> Prog unit) : Prop :=
  forall r, Gql.error r = None ->
    k (Fulfilled r) = act (setMessages (fun _ => listed r)).

(** ** Sample data *)

Module Sample.
Definition toLocaleString (t : Z) : string := "Jan 5, 3:45 PM".
Definition toISOString (t : Z) : string := "2025-01-05T15:45:07.000Z".

Definition u1 : option User.t := Some (User.mk "u1").

Definition t1 : Thread.t :=
  Thread.mk "t1" "u1" "Jan 4, 9:00 AM" "2025-01-04T09:00:00.000Z"
            "2025-01-04T09:00:00.000Z".
Definition t2 : Thread.t :=
  Thread.mk "t2" "u1" "Jan 3, 8:00 AM" "2025-01-03T08:00:00.000Z"
            "2025-01-03T08:30:00.000Z".
Definition t3 : Thread.t :=
  Thread.mk "t3" "u1" "Jan 5, 3:45 PM" "2025-01-05T15:45:00.000Z"
            "2025-01-05T15:45:00.000Z".

Definition hello_user : Message.t :=
  Message.mk "m1" "t1" "u1" true (units "hello")
             "2025-01-05T15:45:05.000Z".
Definition hello_echo : Message.t :=
  Message.mk "m2" "t1" "u1" false (units "hello")
             "2025-01-05T15:45:06.000Z".
Definition old_t1 : Message.t :=
  Message.mk "m7" "t1" "u1" true (units "one") "2025-01-04T09:00:00.000Z".
Definition old_t2 : Message.t :=
  Message.mk "m8" "t2" "u1" true (units "two") "2025-01-03T08:30:00.000Z".

Definition answer (d : Gql.Data) : Outcome :=
  Fulfilled (Gql.mkResponse (Some d) None).
Definition inserted_message (m : Message.t) : Outcome :=
  answer (Gql.mkData None None None (Some m)).
Definition inserted_thread (t : Thread.t) : Outcome :=
  answer (Gql.mkData None None (Some t) None).
Definition listed_messages (l : list Message.t) : Outcome :=
  answer (Gql.mkData None (Some l) None None).
Definition refused : Outcome :=
  Fulfilled (Gql.mkResponse None (Some "permission denied")).
Definition empty_answer : Outcome :=
  Fulfilled (Gql.mkResponse None None).

(** Two threads loaded, ["t1"] selected, nothing pending. *)
Definition w_t1 : World :=
  mkWorld (mkState [t1; t2] [] (Some "t1") false None) [] [] 1000.

(** No user signed in, first render. *)
Definition w_fresh : World := mkWorld initial_state [] [] 1000.
End Sample.

(** The thread list an error-free answer to GetThreads installs:
    [data?.threads || []]. *)
Definition fetched (r : Gql.Response) : list Thread.t :=
  or_empty (chain (Gql.data r) Gql.threads).

(** Code that can only touch the message set, the error field and the
    console: it sends nothing and leaves threads, selection and loading flag
    alone. *)
Inductive quiet : Prog unit -> Prop :=
| quiet_Ret : quiet (Ret tt)
| quiet_Throw : quiet Throw
| quiet_setMessages f k : quiet k -> quiet (Do (setMessages f) k)
| quiet_setError e k : quiet k -> quiet (Do (setError e) k)
| quiet_console label k : quiet k -> quiet (Do (console_error label) k).

Definition is_GET_MESSAGES (q : Request) : bool :=
  match q with
  | GET_MESSAGES _ => true
  | _ => false
  end.

(** The component while nobody is signed in. *)
Definition signed_out (m : Machine) : Prop :=
  present (user_id_of (current_user m)) = None /\
  threads (state (world m)) = [] /\
  isLoading (state (world m)) = true /\
  forallb is_GET_MESSAGES (trace (world m)) = true /\
  Forall (fun p => forall o, quiet (resume p o)) (in_flight m).

(** An event after which still nobody is signed in. *)
Definition stays_signed_out (e : Event) : Prop :=
  match e with
  | UserData user => present (user_id_of user) = None
  | _ => True
  end.

(** ** ChatInterface: the local chat page (lines 292-639)

    A page with the same layout that keeps everything in memory: sending
    appends the message and its echo, nothing is fetched or persisted.  Its
    handlers are synchronous; each is a function from the state of the
    render it closes over to the next state.  The time a handler runs at is
    a parameter: every [Date.now()] and [new Date()] of one handler reads
    it. *)

Module ChatInterface.

Module Message.
Record t : Type := mk {
  id : string;
  content : jsstring;
  isUser : bool;
  timestamp : Z
}.
End Message.

Module Thread.
Record t : Type := mk {
  id : string;
  title : string;
  lastMessage : jsstring;
  timestamp : Z
}.
End Thread.

(** [n.toString()] for an integer time value: its decimal digits, with a
    minus sign below zero. *)
Definition Number_toString (n : Z) : string :=
  DecimalString.NilZero.string_of_int (Z.to_int n).

(** Lines 336-347. *)
Record State : Type := mkState {
  messages : list Message.t;
  inputValue : jsstring;
  threads : list Thread.t;
  activeThreadId : string;
  sidebarOpen : bool
}.

Definition initial_state (now : Z) : State :=
  mkState []
          []
          [Thread.mk "1" "Welcome Chat"
                     (units "Hello! How can I help you today?") now]
          "1"
          false.

(** Lines 365-393. *)
Definition handleSendMessage (now : Z) (s : State) : State :=
  if negb (nonempty (trim (inputValue s))) then s
  else
    let userMessage :=
      Message.mk (Number_toString now) (inputValue s) true now in
    let botMessage :=
      Message.mk (Number_toString (now + 1)) (inputValue s) false now in
    mkState (messages s ++ [userMessage; botMessage])
            []
            (map (fun thread =>
                    if (Thread.id thread =? activeThreadId s)%string
                    then Thread.mk (Thread.id thread) (Thread.title thread)
                                   (inputValue s) now
                    else thread)
                 (threads s))
            (activeThreadId s)
            (sidebarOpen s).

(** Lines 395-400; the boolean tells whether [e.preventDefault()] ran. *)
Definition handleKeyPress (now : Z) (key : string) (shiftKey : bool)
    (s : State) : State * bool :=
  if (key =? "Enter")%string && negb shiftKey
  then (handleSendMessage now s, true)
  else (s, false).

(** Lines 402-413. *)
Definition createNewThread (now : Z) (s : State) : State :=
  let newThread :=
    Thread.mk (Number_toString now) "New Chat"
              (units "Start a new conversation...") now in
  mkState [] (inputValue s) (newThread :: threads s) (Thread.id newThread)
          false.

(** Lines 472-475: the click handler of one rendered thread. *)
Definition clickThread (thread : Thread.t) (s : State) : State :=
  mkState (messages s) (inputValue s) (threads s) (Thread.id thread) false.

(** Lines 476-482. *)
Definition keyDownThread (key : string) (thread : Thread.t) (s : State)
  : State * bool :=
  if (key =? "Enter")%string || (key =? " ")%string
  then (clickThread thread s, true)
  else (s, false).

Definition setSidebarOpen (b : bool) (s : State) : State :=
  mkState (messages s) (inputValue s) (threads s) (activeThreadId s) b.

Definition setInputValue (v : jsstring) (s : State) : State :=
  mkState (messages s) v (threads s) (activeThreadId s) (sidebarOpen s).

(** Line 544: [threads.find((t) => t.id === activeThreadId)?.title || "Chat"] *)
Definition header_title (s : State) : string :=
  match find (fun t => (Thread.id t =? activeThreadId s)%string) (threads s) with
  | Some t => if (Thread.title t =? "")%string then "Chat" else Thread.title t
  | None => "Chat"
  end.

(** Line 613: [disabled={!inputValue.trim()}] *)
Definition send_disabled (s : State) : bool :=
  negb (nonempty (trim (inputValue s))).

(** What the hooks of lines 332-333 return. *)
Record AuthenticationStatus : Type := mkStatus {
  isAuthenticated : bool;
  isLoading : bool
}.

Module Profile.
Record t : Type := mk {
  displayName : option jsstring;
  email : option jsstring
}.
End Profile.

(** Lines 359-363: the route pushed by the effect, if any. *)
Definition redirect (auth : AuthenticationStatus) : option string :=
  if negb (isLoading auth) && negb (isAuthenticated auth)
  then Some "/auth"
  else None.

(** Lines 420-432: which of the three returns the render takes. *)
Inductive View : Type :=
| Spinner
| Nothing
| Page.

Definition render (auth : AuthenticationStatus) : View :=
  if isLoading auth then Spinner
  else if negb (isAuthenticated auth) then Nothing
  else Page.

(** [s.split("@")[0]]: the code units before the first ["@"]. *)
Fixpoint before_at (s : jsstring) : jsstring :=
  match s with
  | [] => []
  | c :: s' => if (c =? 64)%N then [] else c :: before_at s'
  end.

(** Line 508: [user?.displayName || user?.email?.split("@")[0] || "User"] *)
Definition display_name (user : option Profile.t) : jsstring :=
  match chain user Profile.displayName with
  | Some (c :: name) => c :: name
  | _ =>
      match option_map before_at (chain user Profile.email) with
      | Some (c :: name) => c :: name
      | _ => units "User"
      end
  end.

(** What the user can do on the rendered page.  Threads are clicked by
    their position in the rendered list; the overlay exists only while the
    sidebar is open. *)
Inductive Event : Type :=
| Change (value : jsstring)
| ClickSend
| KeyPress (key : string) (shiftKey : bool)
| ClickNewChat
| ClickThread (i : nat)
| KeyDownThread (i : nat) (key : string)
| ClickMenu
| ClickClose
| ClickOverlay
| KeyDownOverlay (key : string).

Definition step (now : Z) (e : Event) (s : State) : State :=
  match e with
  | Change value => setInputValue value s
  | ClickSend => handleSendMessage now s
  | KeyPress key shiftKey => fst (handleKeyPress now key shiftKey s)
  | ClickNewChat => createNewThread now s
  | ClickThread i =>
      match nth_error (threads s) i with
      | Some thread => clickThread thread s
      | None => s
      end
  | KeyDownThread i key =>
      match nth_error (threads s) i with
      | Some thread => fst (keyDownThread key thread s)
      | None => s
      end
  | ClickMenu => setSidebarOpen true s
  | ClickClose => setSidebarOpen false s
  | ClickOverlay => if sidebarOpen s then setSidebarOpen false s else s
  | KeyDownOverlay key =>
      if sidebarOpen s && (key =? "Escape")%string
      then setSidebarOpen false s
      else s
  end.

Definition run (events : list (Z * Event)) (s : State) : State :=
  fold_left (fun s te => step (fst te) (snd te) s) events s.

(** A message list made of (user, echo) pairs with one non-blank content. *)
Inductive echo_log : list Message.t -> Prop :=
| echo_nil : echo_log []
| echo_pair (u b : Message.t) (rest : list Message.t) :
    Message.isUser u = true ->
    Message.isUser b = false ->
    Message.content b = Message.content u ->
    trim (Message.content u) <> [] ->
    echo_log rest ->
    echo_log (u :: b :: rest).


(** The two titles the page ever gives a thread. *)
Definition known_title (title : string) : Prop :=
  title = "Welcome Chat" \/ title = "New Chat".

(** The active id names a listed thread, and every listed thread carries
    one of the two titles. *)
Definition selection_listed (s : State) : Prop :=
  (exists thread, In thread (threads s) /\
                  Thread.id thread = activeThreadId s) /\
  Forall (fun thread => known_title (Thread.title thread)) (threads s).

End ChatInterface.

(** * Properties *)

Section Properties.

Variable toLocaleString : Z -> string.
Variable toISOString : Z -> string.

(** C3.  [sendMessage] called without a user id, without an active thread
    id, or with content that is empty once trimmed does nothing: whatever
    the gateway would answer, the world (state, request trace, console) is
    the one it started from and the call returns at once; inside the event
    loop the click leaves the machine as it was. *)
Theorem sendMessage_precondition_noop
    (user : option User.t) (activeThreadId : option string)
    (content : jsstring) :
  present (user_id_of user) = None \/
  present activeThreadId = None \/
  trim content = [] ->
  (forall arrivals w,
      exec (sendMessage toISOString user activeThreadId content) arrivals w
      = (w, Returned tt)) /\
  (forall m,
      start (sendMessage toISOString user activeThreadId content) m = m).
Proof.
  intros H.
  assert (E : sendMessage toISOString user activeThreadId content = Ret tt).
  { unfold sendMessage.
    destruct H as [-> | [-> | ->]].
    - reflexivity.
    - destruct (present (user_id_of user)); reflexivity.
    - destruct (present (user_id_of user)), (present activeThreadId);
        reflexivity. }
  rewrite E. split; reflexivity.
Qed.

(** C8.  [createThread] called without a user id returns [null]; no
    request is sent and the world is unchanged. *)
Theorem createThread_without_user (user : option User.t) :
  present (user_id_of user) = None ->
  forall arrivals w,
    exec (createThread toLocaleString user) arrivals w = (w, Returned None).
Proof.
  intros H arrivals w. unfold createThread. rewrite H. reflexivity.
Qed.


(** C4.  When the gateway answers [createThread] with the created row and
    no error, the row is put at the head of the thread list, its id
    becomes the active thread id, the message set becomes empty, and the
    call returns that id.  One request was sent, titled with the rendering
    of the time of the call. *)
Theorem createThread_success
    (user : option User.t) (uid : string) (a : Arrival)
    (rest : list Arrival) (d : Gql.Data) (newThread : Thread.t)
    (w : World) :
  present (user_id_of user) = Some uid ->
  outcome a = Fulfilled (Gql.mkResponse (Some d) None) ->
  Gql.insert_threads_one d = Some newThread ->
  exists w',
    exec (createThread toLocaleString user) (a :: rest) w
    = (w', Returned (Some (Thread.id newThread))) /\
    threads (state w') = newThread :: threads (state w) /\
    activeThreadId (state w') = Some (Thread.id newThread) /\
    messages (state w') = [] /\
    isLoading (state w') = isLoading (state w) /\
    error (state w') = error (state w) /\
    trace w' = trace w ++ [CREATE_THREAD uid (toLocaleString (now w))].
Proof.
  intros Hu Ha Hd. unfold createThread. rewrite Hu.
  simpl. rewrite Ha. simpl. rewrite Hd. simpl.
  eexists. split; [reflexivity|]. simpl. repeat split.
Qed.

(** C5.  When the thread-list fetch fails, by a reported error or by a
    transport failure, the call completes with the error field set, the
    thread list as it was, and the loading flag false; while the request
    was pending the flag was true. *)
Theorem fetchThreads_failure
    (user : option User.t) (active : option string) (uid : string)
    (a : Arrival) (rest : list Arrival) (w : World) :
  present (user_id_of user) = Some uid ->
  failed (outcome a) = true ->
  isLoading (state (fst (exec (fetchThreads user active) [] w))) = true /\
  exists w',
    exec (fetchThreads user active) (a :: rest) w = (w', Returned tt) /\
    error (state w') <> None /\
    threads (state w') = threads (state w) /\
    activeThreadId (state w') = activeThreadId (state w) /\
    messages (state w') = messages (state w) /\
    isLoading (state w') = false /\
    trace w' = trace w ++ [GET_THREADS uid].
Proof.
  intros Hu Hf. unfold fetchThreads. rewrite Hu. split; [reflexivity|].
  simpl. destruct (outcome a) as [r|]; simpl in *.
  - destruct (Gql.error r); [|discriminate]. simpl.
    eexists. split; [reflexivity|]. simpl.
    repeat split. discriminate.
  - eexists. split; [reflexivity|]. simpl.
    repeat split. discriminate.
Qed.

(** *** [sendMessage] past its guard *)

Lemma nonempty_true (s : jsstring) : s <> [] -> nonempty s = true.
Proof. destruct s; [congruence|reflexivity]. Qed.

Lemma failed_false (o : Outcome) :
  failed o = false ->
  exists r, o = Fulfilled r /\ Gql.error r = None.
Proof.
  destruct o as [r|]; simpl; [|discriminate].
  destruct (Gql.error r) eqn:E; [discriminate|].
  intros _. exists r. split; [reflexivity|assumption].
Qed.

Lemma nth_error_touch_thread (tid ts : string) (l : list Thread.t) (i : nat) :
  nth_error (touch_thread tid ts l) i =
  option_map (fun thread =>
                if (Thread.id thread =? tid)%string
                then Thread.with_updated_at thread ts
                else thread)
             (nth_error l i).
Proof. unfold touch_thread. apply nth_error_map. Qed.

(** The world after the three requests were answered and lines 255-270
    ran with both rows at hand. *)
Lemma sendMessage_all_answered
    (user : option User.t) (active : option string) (content : jsstring)
    (uid tid : string) (a1 a2 a3 : Arrival) (rest : list Arrival)
    (userMessage botMessage : Message.t) (r3 : Gql.Response) (w : World) :
  present (user_id_of user) = Some uid ->
  present active = Some tid ->
  trim content <> [] ->
  failed (outcome a1) = false ->
  failed (outcome a2) = false ->
  created_message (outcome a1) = Some userMessage ->
  created_message (outcome a2) = Some botMessage ->
  outcome a3 = Fulfilled r3 ->
  exec (sendMessage toISOString user active content)
       (a1 :: a2 :: a3 :: rest) w
  = (mkWorld
       (mkState
          (touch_thread tid (toISOString (at_ms a3)) (threads (state w)))
          (messages (state w) ++ [userMessage; botMessage])
          (activeThreadId (state w)) (isLoading (state w))
          (error (state w)))
       (trace w ++ [CREATE_MESSAGE tid uid true (trim content)]
                ++ [CREATE_MESSAGE tid uid false (trim content)]
                ++ [UPDATE_THREAD_TIMESTAMP tid])
       (console w) (at_ms a3),
     Returned tt).
Proof.
  intros Hu Ht Hc H1 H2 R1 R2 H3.
  apply failed_false in H1 as (r1 & E1 & N1).
  apply failed_false in H2 as (r2 & E2 & N2).
  unfold sendMessage. rewrite Hu, Ht, (nonempty_true _ Hc).
  rewrite E1 in R1. rewrite E2 in R2. simpl in R1, R2.
  simpl. rewrite E1. simpl. rewrite N1. simpl.
  rewrite E2. simpl. rewrite N2. simpl.
  rewrite H3. simpl. rewrite R1, R2. simpl.
  unfold issue, arrive, set_clock. simpl.
  rewrite <- !app_assoc. reflexivity.
Qed.

(** C2.  Past its guard, [sendMessage] sends the user message and nothing
    else until that is answered; then the echo and nothing else until that
    is answered; then the timestamp touch.  If the first request fails the
    call ends there: one request in the trace, the error field set,
    messages and threads (and the other state fields) as they were.  If
    the second fails the call ends there: two requests in the trace, the
    error field set, messages and threads as they were. *)
Theorem sendMessage_sequential_abort
    (user : option User.t) (active : option string) (content : jsstring)
    (uid tid : string) (w : World) :
  present (user_id_of user) = Some uid ->
  present active = Some tid ->
  trim content <> [] ->
  let send := sendMessage toISOString user active content in
  let q1 := CREATE_MESSAGE tid uid true (trim content) in
  let q2 := CREATE_MESSAGE tid uid false (trim content) in
  let q3 := UPDATE_THREAD_TIMESTAMP tid in
  exec send [] w = (issue q1 w, Suspended) /\
  (forall a1,
      failed (outcome a1) = false ->
      exec send [a1] w = (issue q2 (arrive a1 (issue q1 w)), Suspended)) /\
  (forall a1 a2,
      failed (outcome a1) = false ->
      failed (outcome a2) = false ->
      exec send [a1; a2] w
      = (issue q3 (arrive a2 (issue q2 (arrive a1 (issue q1 w)))),
         Suspended)) /\
  (forall a1 rest,
      failed (outcome a1) = true ->
      exists w',
        exec send (a1 :: rest) w = (w', Returned tt) /\
        trace w' = trace w ++ [q1] /\
        error (state w') = Some "Failed to send message." /\
        messages (state w') = messages (state w) /\
        threads (state w') = threads (state w) /\
        activeThreadId (state w') = activeThreadId (state w) /\
        isLoading (state w') = isLoading (state w)) /\
  (forall a1 a2 rest,
      failed (outcome a1) = false ->
      failed (outcome a2) = true ->
      exists w',
        exec send (a1 :: a2 :: rest) w = (w', Returned tt) /\
        trace w' = trace w ++ [q1; q2] /\
        error (state w') <> None /\
        messages (state w') = messages (state w) /\
        threads (state w') = threads (state w) /\
        activeThreadId (state w') = activeThreadId (state w) /\
        isLoading (state w') = isLoading (state w)).
Proof.
  intros Hu Ht Hc send q1 q2 q3. subst send q1 q2 q3.
  unfold sendMessage. rewrite Hu, Ht, (nonempty_true _ Hc).
  split; [reflexivity|]. split; [|split; [|split]].
  - intros a1 H1. apply failed_false in H1 as (r1 & E1 & N1).
    simpl. rewrite E1. simpl. rewrite N1. reflexivity.
  - intros a1 a2 H1 H2.
    apply failed_false in H1 as (r1 & E1 & N1).
    apply failed_false in H2 as (r2 & E2 & N2).
    simpl. rewrite E1. simpl. rewrite N1. simpl.
    rewrite E2. simpl. rewrite N2. reflexivity.
  - intros a1 rest H1. simpl.
    destruct (outcome a1) as [r1|]; simpl in *.
    + destruct (Gql.error r1); [|discriminate]. simpl.
      eexists. split; [reflexivity|]. simpl. repeat split.
    + eexists. split; [reflexivity|]. simpl. repeat split.
  - intros a1 a2 rest H1 H2.
    apply failed_false in H1 as (r1 & E1 & N1).
    simpl. rewrite E1. simpl. rewrite N1. simpl.
    destruct (outcome a2) as [r2|]; simpl in *.
    + destruct (Gql.error r2); [|discriminate]. simpl.
      eexists. split; [reflexivity|]. simpl.
      rewrite <- app_assoc. repeat split. discriminate.
    + eexists. split; [reflexivity|]. simpl.
      rewrite <- app_assoc. repeat split. discriminate.
Qed.

(** C6, as the code has it.  When the two inserts succeed and return their
    rows and the timestamp touch returns (with or without a reported
    error), lines 255-270 append exactly those two rows to the message set,
    user message first; in the thread list every position keeps its
    thread, the threads whose id is the active thread id get [updated_at]
    set to the rendering of the current time with their other fields as
    they were, and all other threads are untouched.  Nothing is re-sorted,
    and no other state field changes.  When the touch is rejected in
    transport, lines 255-270 are not reached: messages and threads stay as
    they were. *)
Theorem sendMessage_reflects_locally
    (user : option User.t) (active : option string) (content : jsstring)
    (uid tid : string) (a1 a2 : Arrival)
    (userMessage botMessage : Message.t) (w : World) :
  present (user_id_of user) = Some uid ->
  present active = Some tid ->
  trim content <> [] ->
  failed (outcome a1) = false ->
  failed (outcome a2) = false ->
  created_message (outcome a1) = Some userMessage ->
  created_message (outcome a2) = Some botMessage ->
  (forall a3 rest r3,
      outcome a3 = Fulfilled r3 ->
      exists w',
        exec (sendMessage toISOString user active content)
             (a1 :: a2 :: a3 :: rest) w = (w', Returned tt) /\
        messages (state w') = messages (state w) ++ [userMessage; botMessage] /\
        length (threads (state w')) = length (threads (state w)) /\
        map Thread.id (threads (state w')) = map Thread.id (threads (state w)) /\
        (forall i thread,
            nth_error (threads (state w)) i = Some thread ->
            (Thread.id thread = tid ->
             exists touched,
               nth_error (threads (state w')) i = Some touched /\
               Thread.updated_at touched = toISOString (at_ms a3) /\
               Thread.id touched = Thread.id thread /\
               Thread.user_id touched = Thread.user_id thread /\
               Thread.title touched = Thread.title thread /\
               Thread.created_at touched = Thread.created_at thread) /\
            (Thread.id thread <> tid ->
             nth_error (threads (state w')) i = Some thread)) /\
        activeThreadId (state w') = activeThreadId (state w) /\
        isLoading (state w') = isLoading (state w) /\
        error (state w') = error (state w)) /\
  (forall a3 rest,
      outcome a3 = Rejected ->
      exists w',
        exec (sendMessage toISOString user active content)
             (a1 :: a2 :: a3 :: rest) w = (w', Returned tt) /\
        messages (state w') = messages (state w) /\
        threads (state w') = threads (state w)).
Proof.
  intros Hu Ht Hc H1 H2 R1 R2. split.
  - intros a3 rest r3 H3. eexists. split.
    { eapply sendMessage_all_answered; eassumption. }
    simpl. split; [reflexivity|]. split; [|split; [|split]].
    + unfold touch_thread. apply length_map.
    + unfold touch_thread. rewrite map_map. apply map_ext.
      intros thread. destruct (Thread.id thread =? tid)%string; reflexivity.
    + intros i thread Hi. rewrite nth_error_touch_thread, Hi. simpl.
      destruct (String.eqb_spec (Thread.id thread) tid); split;
        intros; try congruence.
      eexists. split; [reflexivity|]. repeat split.
    + repeat split.
  - intros a3 rest H3.
    apply failed_false in H1 as (r1 & E1 & N1).
    apply failed_false in H2 as (r2 & E2 & N2).
    unfold sendMessage. rewrite Hu, Ht, (nonempty_true _ Hc).
    simpl. rewrite E1. simpl. rewrite N1. simpl.
    rewrite E2. simpl. rewrite N2. simpl. rewrite H3. simpl.
    eexists. split; [reflexivity|]. simpl. split; reflexivity.
Qed.

(** C7, as the code has it.  After two successful inserts that returned
    their rows, an error reported by the gateway for the timestamp touch is
    ignored: both rows are appended, every thread with the active id has
    its [updated_at] set to the rendering of the current time, and the
    error field is left alone.  A transport failure of the touch is caught
    like any other: the error field is set to "Failed to send message." and
    neither messages nor threads change. *)
Theorem sendMessage_touch_outcome
    (user : option User.t) (active : option string) (content : jsstring)
    (uid tid : string) (a1 a2 : Arrival)
    (userMessage botMessage : Message.t) (w : World) :
  present (user_id_of user) = Some uid ->
  present active = Some tid ->
  trim content <> [] ->
  failed (outcome a1) = false ->
  failed (outcome a2) = false ->
  created_message (outcome a1) = Some userMessage ->
  created_message (outcome a2) = Some botMessage ->
  (forall a3 rest r3,
      outcome a3 = Fulfilled r3 ->
      exists w',
        exec (sendMessage toISOString user active content)
             (a1 :: a2 :: a3 :: rest) w = (w', Returned tt) /\
        messages (state w') = messages (state w) ++ [userMessage; botMessage] /\
        (forall i thread,
            nth_error (threads (state w)) i = Some thread ->
            Thread.id thread = tid ->
            exists touched,
              nth_error (threads (state w')) i = Some touched /\
              Thread.id touched = tid /\
              Thread.updated_at touched = toISOString (at_ms a3)) /\
        error (state w') = error (state w)) /\
  (forall a3 rest,
      outcome a3 = Rejected ->
      exists w',
        exec (sendMessage toISOString user active content)
             (a1 :: a2 :: a3 :: rest) w = (w', Returned tt) /\
        messages (state w') = messages (state w) /\
        threads (state w') = threads (state w) /\
        error (state w') = Some "Failed to send message.").
Proof.
  intros Hu Ht Hc H1 H2 R1 R2. split.
  - intros a3 rest r3 H3. eexists. split.
    { eapply sendMessage_all_answered; eassumption. }
    simpl. split; [reflexivity|]. split; [|reflexivity].
    intros i thread Hi Hid. rewrite nth_error_touch_thread, Hi. simpl.
    apply String.eqb_eq in Hid. rewrite Hid.
    eexists. split; [reflexivity|]. split.
    + apply String.eqb_eq. exact Hid.
    + reflexivity.
  - intros a3 rest H3.
    apply failed_false in H1 as (r1 & E1 & N1).
    apply failed_false in H2 as (r2 & E2 & N2).
    unfold sendMessage. rewrite Hu, Ht, (nonempty_true _ Hc).
    simpl. rewrite E1. simpl. rewrite N1. simpl.
    rewrite E2. simpl. rewrite N2. simpl. rewrite H3. simpl.
    eexists. split; [reflexivity|]. simpl. repeat split.
Qed.

(** C10, as the code has it.  When both inserts are answered without error
    but one of the two answers carries no created row, the local
    reflection does not happen by halves: whatever the timestamp touch
    does, the message set and the thread list are exactly as before.  If
    the touch returns, the call ends with the whole state, error field
    included, as it was.  If the touch is rejected in transport, the error
    field is set to "Failed to send message." and nothing else changes. *)
Theorem sendMessage_missing_row
    (user : option User.t) (active : option string) (content : jsstring)
    (uid tid : string) (a1 a2 : Arrival) (w : World) :
  present (user_id_of user) = Some uid ->
  present active = Some tid ->
  trim content <> [] ->
  failed (outcome a1) = false ->
  failed (outcome a2) = false ->
  created_message (outcome a1) = None \/
  created_message (outcome a2) = None ->
  (forall tail,
      let w' := fst (exec (sendMessage toISOString user active content)
                          (a1 :: a2 :: tail) w) in
      messages (state w') = messages (state w) /\
      threads (state w') = threads (state w)) /\
  (forall a3 rest r3,
      outcome a3 = Fulfilled r3 ->
      exists w',
        exec (sendMessage toISOString user active content)
             (a1 :: a2 :: a3 :: rest) w = (w', Returned tt) /\
        state w' = state w /\
        trace w' = trace w ++ [CREATE_MESSAGE tid uid true (trim content);
                               CREATE_MESSAGE tid uid false (trim content);
                               UPDATE_THREAD_TIMESTAMP tid]) /\
  (forall a3 rest,
      outcome a3 = Rejected ->
      exists w',
        exec (sendMessage toISOString user active content)
             (a1 :: a2 :: a3 :: rest) w = (w', Returned tt) /\
        error (state w') = Some "Failed to send message." /\
        messages (state w') = messages (state w) /\
        threads (state w') = threads (state w) /\
        activeThreadId (state w') = activeThreadId (state w) /\
        isLoading (state w') = isLoading (state w)).
Proof.
  intros Hu Ht Hc H1 H2 R.
  apply failed_false in H1 as (r1 & E1 & N1).
  apply failed_false in H2 as (r2 & E2 & N2).
  rewrite E1, E2 in R. simpl in R.
  unfold sendMessage. rewrite Hu, Ht, (nonempty_true _ Hc).
  split; [|split].
  - intros [|a3 rest]; simpl; rewrite E1; simpl; rewrite N1; simpl;
      rewrite E2; simpl; rewrite N2; simpl.
    + split; reflexivity.
    + destruct (outcome a3) as [r3|]; simpl.
      * destruct R as [R|R]; rewrite R;
          [|destruct (chain (Gql.data r1) Gql.insert_messages_one)];
          simpl; split; reflexivity.
      * split; reflexivity.
  - intros a3 rest r3 H3. simpl. rewrite E1. simpl. rewrite N1. simpl.
    rewrite E2. simpl. rewrite N2. simpl. rewrite H3. simpl.
    destruct R as [R|R]; rewrite R;
      [|destruct (chain (Gql.data r1) Gql.insert_messages_one)];
      simpl; (eexists; split; [reflexivity|]); simpl;
      rewrite <- !app_assoc; (split; [|reflexivity]);
      destruct w as [[? ? ? ? ?] ? ? ?]; reflexivity.
  - intros a3 rest H3. simpl. rewrite E1. simpl. rewrite N1. simpl.
    rewrite E2. simpl. rewrite N2. simpl. rewrite H3. simpl.
    eexists. split; [reflexivity|]. simpl. repeat split.
Qed.

(** *** The event loop *)

Lemma same_dep_refl v : same_dep v v = true.
Proof. destruct v; simpl; [apply String.eqb_refl|reflexivity]. Qed.

Lemma same_dep_false a b : a <> b -> same_dep a b = false.
Proof.
  destruct a as [x|], b as [y|]; simpl; try reflexivity; try congruence.
  intros H. apply String.eqb_neq. congruence.
Qed.

Lemma present_nonempty s : s <> "" -> present (Some s) = Some s.
Proof. intros H. simpl. apply String.eqb_neq in H. rewrite H. reflexivity. Qed.

Lemma take_ticket_skip (n : nat) (l l' : list Pending) :
  Forall (fun p => ticket p <> n) l ->
  take_ticket n (l ++ l') =
  match take_ticket n l' with
  | Some (p, rest) => Some (p, l ++ rest)
  | None => None
  end.
Proof.
  intros H. induction H as [|p l Hp Hl IH]; simpl.
  - destruct (take_ticket n l') as [[? ?]|]; reflexivity.
  - destruct (Nat.eqb_spec (ticket p) n); [contradiction|].
    rewrite IH. destruct (take_ticket n l') as [[? ?]|]; reflexivity.
Qed.

Lemma take_ticket_found (n : nat) (before after : list Pending) (p : Pending) :
  Forall (fun p => ticket p <> n) before -> ticket p = n ->
  take_ticket n (before ++ p :: after) = Some (p, before ++ after).
Proof.
  intros H E. rewrite (take_ticket_skip _ _ _ H). simpl.
  rewrite E, Nat.eqb_refl. reflexivity.
Qed.

Lemma fetchMessages_awaits (T : string) :
  T <> "" ->
  exists k, fetchMessages (Some T) = Await (GET_MESSAGES T) k /\ installs_answer k.
Proof.
  intros H. unfold fetchMessages. rewrite (present_nonempty _ H).
  eexists. split; [reflexivity|].
  intros r Hr. simpl. rewrite Hr. reflexivity.
Qed.

Lemma fetchThreads_awaits (user : option User.t) (active : option string) (uid : string) :
  present (user_id_of user) = Some uid ->
  exists k, fetchThreads user active =
    Do (setIsLoading true) (Do (setError None) (Await (GET_THREADS uid) k)).
Proof.
  intros H. unfold fetchThreads. rewrite H. eexists. reflexivity.
Qed.

Lemma step_select (m : Machine) (T : string) :
  committed m -> T <> "" -> activeThreadId (state (world m)) <> Some T ->
  exists pre k s',
    step toLocaleString toISOString m (Click_selectThread T) =
      mkMachine
        (mkWorld s' (trace (world m) ++ map awaited pre ++ [GET_MESSAGES T])
                 (console (world m)) (now (world m)))
        (current_user m)
        (in_flight m ++ pre ++
           [mkPending (next_ticket m + length pre) (GET_MESSAGES T) k])
        (S (next_ticket m + length pre))
        (Some (user_id_of (current_user m), Some T)) /\
    activeThreadId s' = Some T /\
    messages s' = messages (state (world m)) /\
    Forall (fun p => next_ticket m <= ticket p < next_ticket m + length pre) pre /\
    installs_answer k.
Proof.
  intros Hc HT Ha.
  destruct m as [[[ths ms cur ld er] tr co nw] user fl nt rd].
  unfold committed in Hc. simpl in Hc, Ha. subst rd.
  destruct (fetchMessages_awaits T HT) as (k & Ek & Hk).
  unfold step, handle, selectThread, commit.
  cbn [start act world current_user in_flight next_ticket rendered state
       apply_action threads messages activeThreadId isLoading error
       trace console now].
  rewrite same_dep_refl, (same_dep_false _ _ Ha). cbn [negb orb].
  destruct (present (user_id_of user)) as [uid|] eqn:Eu.
  - destruct (fetchThreads_awaits user (Some T) uid Eu) as (kt & Et).
    rewrite Et, Ek. 
    exists [mkPending nt (GET_THREADS uid) kt], k.
    eexists. split.
    + cbn. unfold issue. cbn. rewrite <- !app_assoc. cbn.
      rewrite Nat.add_1_r. reflexivity.
    + cbn. repeat split; try assumption.
      constructor; [cbn; lia|constructor].
  - rewrite Ek. exists [], k. eexists. split.
    + cbn. unfold issue. cbn. rewrite Nat.add_0_r. reflexivity.
    + cbn. repeat split; try assumption. constructor.
Qed.

Lemma step_resolve_messages (m : Machine) (before after : list Pending)
    (n : nat) (p : Pending) (a : Arrival) (r : Gql.Response) :
  in_flight m = before ++ p :: after ->
  ticket p = n ->
  Forall (fun p => ticket p <> n) before ->
  committed m ->
  installs_answer (resume p) ->
  outcome a = Fulfilled r -> Gql.error r = None ->
  step toLocaleString toISOString m (Resolve n a) =
    mkMachine
      (mkWorld (mkState (threads (state (world m))) (listed r)
                        (activeThreadId (state (world m)))
                        (isLoading (state (world m)))
                        (error (state (world m))))
               (trace (world m)) (console (world m)) (at_ms a))
      (current_user m) (before ++ after) (next_ticket m) (rendered m).
Proof.
  intros Hfl Hn Hb Hc Hk Ea Er.
  destruct m as [[[ths ms cur ld er] tr co nw] user fl nt rd].
  unfold committed in Hc. simpl in Hfl, Hc. subst rd fl.
  unfold step, handle.
  cbn [in_flight].
  rewrite (take_ticket_found n before after p Hb Hn).
  rewrite Ea, (Hk r Er).
  unfold commit. cbn. rewrite !same_dep_refl. cbn. reflexivity.
Qed.

(** C1, as the code has it.  After two changes of the active thread, to
    [T1] and then to [T2], both message fetches are pending, the one for
    [T1] issued first.  Each error-free answer replaces the message set
    when it arrives, whatever the active thread is by then: answered in
    the order of issue the set ends as the one listed for [T2]; if the
    answer for [T1] arrives after the one for [T2], the set ends as the
    one listed for [T1], while the active thread is [T2]. *)
Theorem last_answer_installs_messages
    (m : Machine) (T1 T2 : string) (a1 a2 : Arrival)
    (r1 r2 : Gql.Response) :
  tickets_fresh m ->
  committed m ->
  T1 <> "" -> T2 <> "" -> T1 <> T2 ->
  activeThreadId (state (world m)) <> Some T1 ->
  outcome a1 = Fulfilled r1 -> Gql.error r1 = None ->
  outcome a2 = Fulfilled r2 -> Gql.error r2 = None ->
  let m1 := step toLocaleString toISOString m (Click_selectThread T1) in
  let m2 := step toLocaleString toISOString m1 (Click_selectThread T2) in
  let k1 := pred (next_ticket m1) in
  let k2 := pred (next_ticket m2) in
  let in_order :=
    run toLocaleString toISOString m2 [Resolve k1 a1; Resolve k2 a2] in
  let overtaken :=
    run toLocaleString toISOString m2 [Resolve k2 a2; Resolve k1 a1] in
  pending_request k1 m2 = Some (GET_MESSAGES T1) /\
  pending_request k2 m2 = Some (GET_MESSAGES T2) /\
  k1 < k2 /\
  activeThreadId (state (world in_order)) = Some T2 /\
  messages (state (world in_order)) = listed r2 /\
  activeThreadId (state (world overtaken)) = Some T2 /\
  messages (state (world overtaken)) = listed r1.
Proof.
  intros Hf Hc N1 N2 N12 Ha E1 G1 E2 G2 m1 m2 k1 k2 in_order overtaken.
  destruct (step_select m T1 Hc N1 Ha)
    as (pre1 & kM1 & s1 & Em1 & A1 & _ & B1 & I1).
  fold m1 in Em1. clearbody m1.
  assert (Hc1 : committed m1).
  { rewrite Em1. unfold committed. cbn. rewrite A1. reflexivity. }
  assert (Ha1 : activeThreadId (state (world m1)) <> Some T2).
  { rewrite Em1. cbn. rewrite A1. congruence. }
  destruct (step_select m1 T2 Hc1 N2 Ha1)
    as (pre2 & kM2 & s2 & Em2 & A2 & _ & B2 & I2).
  fold m2 in Em2. clearbody m2.
  set (p1 := mkPending (next_ticket m + length pre1) (GET_MESSAGES T1) kM1) in *.
  set (p2 := mkPending (next_ticket m1 + length pre2) (GET_MESSAGES T2) kM2) in *.
  assert (K1 : ticket p1 = k1).
  { unfold k1. rewrite Em1. reflexivity. }
  assert (K2 : ticket p2 = k2).
  { unfold k2. rewrite Em2. reflexivity. }
  assert (N : next_ticket m1 = S k1).
  { rewrite Em1, <- K1. reflexivity. }
  assert (F2 : in_flight m2 = (in_flight m ++ pre1) ++ p1 :: pre2 ++ [p2]).
  { rewrite Em2. cbn [in_flight]. rewrite Em1. cbn [in_flight].
    rewrite <- !app_assoc. reflexivity. }
  assert (Lo : Forall (fun p => ticket p < k1) (in_flight m ++ pre1)).
  { apply Forall_app. split.
    - eapply Forall_impl; [|exact Hf]. cbn in *. intros; lia.
    - eapply Forall_impl; [|exact B1]. cbn in *. intros; lia. }
  assert (Mid : Forall (fun p => k1 < ticket p < k2) pre2).
  { eapply Forall_impl; [|exact B2]. cbn in *. intros; lia. }
  assert (Lt : k1 < k2) by (cbn in *; lia).
  assert (S1 : Forall (fun p => ticket p <> k1) (in_flight m ++ pre1)).
  { eapply Forall_impl; [|exact Lo]. cbn. intros; lia. }
  assert (S2 : Forall (fun p => ticket p <> k2) ((in_flight m ++ pre1) ++ pre2)).
  { apply Forall_app. split.
    - eapply Forall_impl; [|exact Lo]. cbn. intros; lia.
    - eapply Forall_impl; [|exact Mid]. cbn. intros; lia. }
  assert (S2' : Forall (fun p => ticket p <> k2)
                  ((in_flight m ++ pre1) ++ p1 :: pre2)).
  { apply Forall_app. split.
    - eapply Forall_impl; [|exact Lo]. cbn. intros; lia.
    - constructor; [lia|].
      eapply Forall_impl; [|exact Mid]. cbn. intros; lia. }
  assert (F2' : in_flight m2 = ((in_flight m ++ pre1) ++ p1 :: pre2) ++ p2 :: []).
  { rewrite F2. rewrite <- !app_assoc. reflexivity. }
  assert (Hc2 : committed m2).
  { rewrite Em2. unfold committed. cbn. rewrite A2. reflexivity. }
  assert (Act2 : activeThreadId (state (world m2)) = Some T2).
  { rewrite Em2. exact A2. }
  split; [|split; [|split; [exact Lt|]]].
  - unfold pending_request. rewrite F2.
    rewrite (take_ticket_found k1 _ _ p1 S1 K1). reflexivity.
  - unfold pending_request. rewrite F2'.
    rewrite (take_ticket_found k2 _ _ p2 S2' K2). reflexivity.
  - assert (R1 := step_resolve_messages m2 _ _ k1 p1 a1 r1 F2 K1 S1 Hc2 I1 E1 G1).
    assert (R2 := step_resolve_messages m2 _ _ k2 p2 a2 r2 F2' K2 S2' Hc2 I2 E2 G2).
    subst in_order overtaken. unfold run. cbn [fold_left].
    rewrite R1, R2.
    split; [|split; [|split]].
    + erewrite step_resolve_messages
        with (p := p2) (r := r2) (after := [])
             (before := (in_flight m ++ pre1) ++ pre2);
        [cbn; try exact Act2; reflexivity| | exact K2 | | | exact I2 | exact E2 | exact G2].
      * cbn [in_flight]. rewrite app_assoc. reflexivity.
      * exact S2.
      * unfold committed in *. cbn. exact Hc2.
    + erewrite step_resolve_messages
        with (p := p2) (r := r2) (after := [])
             (before := (in_flight m ++ pre1) ++ pre2);
        [cbn; try exact Act2; reflexivity| | exact K2 | | | exact I2 | exact E2 | exact G2].
      * cbn [in_flight]. rewrite app_assoc. reflexivity.
      * exact S2.
      * unfold committed in *. cbn. exact Hc2.
    + erewrite step_resolve_messages
        with (p := p1) (r := r1) (after := pre2 ++ [])
             (before := in_flight m ++ pre1);
        [cbn; try exact Act2; reflexivity| | exact K1 | | | exact I1 | exact E1 | exact G1].
      * cbn [in_flight]. rewrite <- (app_assoc _ (p1 :: pre2) []).
        reflexivity.
      * exact S1.
      * unfold committed in *. cbn. exact Hc2.
    + erewrite step_resolve_messages
        with (p := p1) (r := r1) (after := pre2 ++ [])
             (before := in_flight m ++ pre1);
        [cbn; try exact Act2; reflexivity| | exact K1 | | | exact I1 | exact E1 | exact G1].
      * cbn [in_flight]. rewrite <- (app_assoc _ (p1 :: pre2) []).
        reflexivity.
      * exact S1.
      * unfold committed in *. cbn. exact Hc2.
Qed.
End Properties.

(** * Concrete runs *)

(** The spec's scenario: thread ["t1"] is active with no messages, the user
    sends ["  hello  "]. *)
Example send_hello :
  exec (sendMessage Sample.toISOString Sample.u1 (Some "t1")
                    (units "  hello  "))
       [mkArrival 1001 (Sample.inserted_message Sample.hello_user);
        mkArrival 1002 (Sample.inserted_message Sample.hello_echo);
        mkArrival 1003 Sample.empty_answer]
       Sample.w_t1
  = (mkWorld
       (mkState
          [Thread.mk "t1" "u1" "Jan 4, 9:00 AM" "2025-01-04T09:00:00.000Z"
                     "2025-01-05T15:45:07.000Z";
           Sample.t2]
          [Sample.hello_user; Sample.hello_echo] (Some "t1") false None)
       [CREATE_MESSAGE "t1" "u1" true (units "hello");
        CREATE_MESSAGE "t1" "u1" false (units "hello");
        UPDATE_THREAD_TIMESTAMP "t1"]
       [] 1003,
     Returned tt).
Proof. reflexivity. Qed.

(** First load: the fetched list is installed and, no thread being active,
    its first thread is selected. *)
Example first_load_selects_first_thread :
  exec (fetchThreads Sample.u1 None)
       [mkArrival 1001
          (Sample.answer
             (Gql.mkData (Some [Sample.t1; Sample.t2]) None None None))]
       Sample.w_fresh
  = (mkWorld (mkState [Sample.t1; Sample.t2] [] (Some "t1") false None)
             [GET_THREADS "u1"] [] 1001,
     Returned tt).
Proof. reflexivity. Qed.

(** User ["u1"] has no threads and creates one. *)
Example create_first_thread :
  exec (createThread Sample.toLocaleString Sample.u1)
       [mkArrival 1001 (Sample.inserted_thread Sample.t3)]
       (mkWorld (mkState [] [] None false None) [] [] 1000)
  = (mkWorld (mkState [Sample.t3] [] (Some "t3") false None)
             [CREATE_THREAD "u1" "Jan 5, 3:45 PM"] [] 1001,
     Returned (Some "t3")).
Proof. reflexivity. Qed.

(** Mounting with a signed-in user sends the thread-list query and, no
    thread being active, clears the message set without a query. *)
Example mount_signed_in :
  trace (world (mount Sample.u1 1000)) = [GET_THREADS "u1"] /\
  messages (state (world (mount Sample.u1 1000))) = [] /\
  isLoading (state (world (mount Sample.u1 1000))) = true /\
  map ticket (in_flight (mount Sample.u1 1000)) = [0].
Proof. repeat split. Qed.

Example trim_non_breaking_space :
  trim ([160; 8232] ++ units "a b" ++ [12288; 10])%N = units "a b".
Proof. reflexivity. Qed.

Lemma sendMessage_precondition_noop_witness :
  (forall arrivals w,
      exec (sendMessage Sample.toISOString Sample.u1 (Some "t1")
                        (units "   ")) arrivals w
      = (w, Returned tt)) /\
  (forall m,
      start (sendMessage Sample.toISOString Sample.u1 (Some "t1")
                         (units "   ")) m = m).
Proof.
  apply (sendMessage_precondition_noop
           Sample.toISOString Sample.u1 (Some "t1") (units "   ")).
  right; right. reflexivity.
Defined.

Lemma createThread_without_user_witness :
  exec (createThread Sample.toLocaleString None)
       [mkArrival 1001 (Sample.inserted_thread Sample.t3)] Sample.w_fresh
  = (Sample.w_fresh, Returned None).
Proof.
  apply (createThread_without_user Sample.toLocaleString None).
  reflexivity.
Defined.


Lemma createThread_success_witness :
  exists w',
    exec (createThread Sample.toLocaleString Sample.u1)
         [mkArrival 1001 (Sample.inserted_thread Sample.t3)] Sample.w_t1
    = (w', Returned (Some "t3")) /\
    threads (state w') = [Sample.t3; Sample.t1; Sample.t2] /\
    activeThreadId (state w') = Some "t3" /\
    messages (state w') = [] /\
    isLoading (state w') = false /\
    error (state w') = None /\
    trace w' = [CREATE_THREAD "u1" "Jan 5, 3:45 PM"].
Proof.
  apply (createThread_success
           Sample.toLocaleString Sample.u1 "u1"
           (mkArrival 1001 (Sample.inserted_thread Sample.t3)) []
           (Gql.mkData None None (Some Sample.t3) None) Sample.t3
           Sample.w_t1);
    reflexivity.
Defined.

Lemma fetchThreads_failure_witness :
  isLoading
    (state (fst (exec (fetchThreads Sample.u1 None) [] Sample.w_fresh)))
  = true /\
  exists w',
    exec (fetchThreads Sample.u1 None) [mkArrival 1001 Sample.refused]
         Sample.w_fresh
    = (w', Returned tt) /\
    error (state w') <> None /\
    threads (state w') = [] /\
    activeThreadId (state w') = None /\
    messages (state w') = [] /\
    isLoading (state w') = false /\
    trace w' = [GET_THREADS "u1"].
Proof.
  apply (fetchThreads_failure
           Sample.u1 None "u1" (mkArrival 1001 Sample.refused) []
           Sample.w_fresh);
    reflexivity.
Defined.

Lemma sendMessage_sequential_abort_witness :
  let send := sendMessage Sample.toISOString Sample.u1 (Some "t1")
                          (units "  hello  ") in
  let q1 := CREATE_MESSAGE "t1" "u1" true (units "hello") in
  let q2 := CREATE_MESSAGE "t1" "u1" false (units "hello") in
  let q3 := UPDATE_THREAD_TIMESTAMP "t1" in
  let a1 := mkArrival 1001 (Sample.inserted_message Sample.hello_user) in
  let a2 := mkArrival 1002 (Sample.inserted_message Sample.hello_echo) in
  let lost := mkArrival 1001 Rejected in
  let denied := mkArrival 1002 Sample.refused in
  trace (fst (exec send [] Sample.w_t1)) = [q1] /\
  trace (fst (exec send [a1] Sample.w_t1)) = [q1; q2] /\
  trace (fst (exec send [a1; a2] Sample.w_t1)) = [q1; q2; q3] /\
  (exists w',
      exec send [lost; a2] Sample.w_t1 = (w', Returned tt) /\
      trace w' = [q1] /\
      error (state w') = Some "Failed to send message." /\
      messages (state w') = [] /\
      threads (state w') = [Sample.t1; Sample.t2] /\
      activeThreadId (state w') = Some "t1" /\
      isLoading (state w') = false) /\
  (exists w',
      exec send [a1; denied; a2] Sample.w_t1 = (w', Returned tt) /\
      trace w' = [q1; q2] /\
      error (state w') <> None /\
      messages (state w') = [] /\
      threads (state w') = [Sample.t1; Sample.t2] /\
      activeThreadId (state w') = Some "t1" /\
      isLoading (state w') = false).
Proof.
  intros send q1 q2 q3 a1 a2 lost denied.
  destruct (sendMessage_sequential_abort
              Sample.toISOString Sample.u1 (Some "t1") (units "  hello  ")
              "u1" "t1" Sample.w_t1)
    as (H0 & H1 & H2 & H3 & H4);
    [reflexivity | reflexivity | discriminate |].
  split; [|split; [|split; [|split]]].
  - subst send. rewrite H0. reflexivity.
  - subst send. rewrite (H1 a1); reflexivity.
  - subst send. rewrite (H2 a1 a2); reflexivity.
  - apply (H3 lost [a2]). reflexivity.
  - apply (H4 a1 denied [a2]); reflexivity.
Defined.

Lemma sendMessage_reflects_locally_witness :
  let send := sendMessage Sample.toISOString Sample.u1 (Some "t1")
                          (units "  hello  ") in
  let a1 := mkArrival 1001 (Sample.inserted_message Sample.hello_user) in
  let a2 := mkArrival 1002 (Sample.inserted_message Sample.hello_echo) in
  (exists w',
      exec send [a1; a2; mkArrival 1003 Sample.refused] Sample.w_t1
      = (w', Returned tt) /\
      messages (state w') = [Sample.hello_user; Sample.hello_echo] /\
      map Thread.id (threads (state w')) = ["t1"; "t2"] /\
      (exists touched,
          nth_error (threads (state w')) 0 = Some touched /\
          Thread.updated_at touched = "2025-01-05T15:45:07.000Z" /\
          Thread.id touched = "t1" /\
          Thread.user_id touched = "u1" /\
          Thread.title touched = "Jan 4, 9:00 AM" /\
          Thread.created_at touched = "2025-01-04T09:00:00.000Z") /\
      nth_error (threads (state w')) 1 = Some Sample.t2 /\
      error (state w') = None) /\
  (exists w',
      exec send [a1; a2; mkArrival 1003 Rejected] Sample.w_t1
      = (w', Returned tt) /\
      messages (state w') = [] /\
      threads (state w') = [Sample.t1; Sample.t2]).
Proof.
  intros send a1 a2.
  destruct (sendMessage_reflects_locally
              Sample.toISOString Sample.u1 (Some "t1") (units "  hello  ")
              "u1" "t1" a1 a2 Sample.hello_user Sample.hello_echo
              Sample.w_t1)
    as (Hreached & Hskipped);
    [reflexivity | reflexivity | discriminate
     | reflexivity | reflexivity | reflexivity | reflexivity |].
  split.
  - destruct (Hreached (mkArrival 1003 Sample.refused) []
                       (Gql.mkResponse None (Some "permission denied"))
                       eq_refl)
      as (w' & He & Hm & _ & Hids & Hpos & _ & _ & Herr).
    exists w'. split; [exact He|]. split; [exact Hm|].
    split; [exact Hids|]. split; [|split; [|exact Herr]].
    + apply (proj1 (Hpos 0 Sample.t1 eq_refl)). reflexivity.
    + apply (proj2 (Hpos 1 Sample.t2 eq_refl)). discriminate.
  - apply (Hskipped (mkArrival 1003 Rejected) []). reflexivity.
Defined.

(** With both rows returned, a transport failure of the timestamp touch
    keeps them out of the message set: one message was shown before the
    send and one message is shown after it. *)
Lemma rows_lost_when_touch_rejected :
  let w := mkWorld (mkState [Sample.t1; Sample.t2] [Sample.old_t1]
                            (Some "t1") false None) [] [] 1000 in
  let a1 := mkArrival 1001 (Sample.inserted_message Sample.hello_user) in
  let a2 := mkArrival 1002 (Sample.inserted_message Sample.hello_echo) in
  let a3 := mkArrival 1003 Rejected in
  let w' := fst (exec (sendMessage Sample.toISOString Sample.u1 (Some "t1")
                                   (units "hello"))
                      [a1; a2; a3] w) in
  failed (outcome a1) = false /\
  failed (outcome a2) = false /\
  created_message (outcome a1) = Some Sample.hello_user /\
  created_message (outcome a2) = Some Sample.hello_echo /\
  trace w'
  = [CREATE_MESSAGE "t1" "u1" true (units "hello");
     CREATE_MESSAGE "t1" "u1" false (units "hello");
     UPDATE_THREAD_TIMESTAMP "t1"] /\
  messages (state w') = [Sample.old_t1] /\
  messages (state w')
    <> [Sample.old_t1; Sample.hello_user; Sample.hello_echo] /\
  map Thread.updated_at (threads (state w'))
  = ["2025-01-04T09:00:00.000Z"; "2025-01-03T08:30:00.000Z"].
Proof.
  vm_compute. repeat split. discriminate.
Qed.

(** A transport failure of the timestamp touch is fatal to the local
    reflection: the two inserts succeed and return their rows, the touch is
    rejected, and neither row reaches the message set. *)
Lemma touch_rejected_nothing_reflected :
  let a1 := mkArrival 1001 (Sample.inserted_message Sample.hello_user) in
  let a2 := mkArrival 1002 (Sample.inserted_message Sample.hello_echo) in
  let a3 := mkArrival 1003 Rejected in
  let w' := fst (exec (sendMessage Sample.toISOString Sample.u1 (Some "t1")
                                   (units "  hello  "))
                      [a1; a2; a3] Sample.w_t1) in
  failed (outcome a1) = false /\
  failed (outcome a2) = false /\
  created_message (outcome a1) = Some Sample.hello_user /\
  created_message (outcome a2) = Some Sample.hello_echo /\
  failed (outcome a3) = true /\
  messages (state w') = [] /\
  messages (state w')
    <> messages (state Sample.w_t1) ++ [Sample.hello_user; Sample.hello_echo] /\
  threads (state w') = [Sample.t1; Sample.t2] /\
  error (state w') = Some "Failed to send message.".
Proof.
  vm_compute. repeat split. discriminate.
Qed.

Lemma sendMessage_touch_outcome_witness :
  let send := sendMessage Sample.toISOString Sample.u1 (Some "t1")
                          (units "  hello  ") in
  let a1 := mkArrival 1001 (Sample.inserted_message Sample.hello_user) in
  let a2 := mkArrival 1002 (Sample.inserted_message Sample.hello_echo) in
  (exists w',
      exec send [a1; a2; mkArrival 1003 Sample.refused] Sample.w_t1
      = (w', Returned tt) /\
      messages (state w') = [Sample.hello_user; Sample.hello_echo] /\
      (exists touched,
          nth_error (threads (state w')) 0 = Some touched /\
          Thread.id touched = "t1" /\
          Thread.updated_at touched = "2025-01-05T15:45:07.000Z") /\
      error (state w') = None) /\
  (exists w',
      exec send [a1; a2; mkArrival 1003 Rejected] Sample.w_t1
      = (w', Returned tt) /\
      messages (state w') = [] /\
      threads (state w') = [Sample.t1; Sample.t2] /\
      error (state w') = Some "Failed to send message.").
Proof.
  intros send a1 a2.
  destruct (sendMessage_touch_outcome
              Sample.toISOString Sample.u1 (Some "t1") (units "  hello  ")
              "u1" "t1" a1 a2 Sample.hello_user Sample.hello_echo
              Sample.w_t1)
    as (Hreported & Hrejected);
    [reflexivity | reflexivity | discriminate
     | reflexivity | reflexivity | reflexivity | reflexivity |].
  split.
  - destruct (Hreported (mkArrival 1003 Sample.refused) []
                        (Gql.mkResponse None (Some "permission denied"))
                        eq_refl)
      as (w' & He & Hm & Hpos & Herr).
    exists w'. split; [exact He|]. split; [exact Hm|]. split; [|exact Herr].
    apply (Hpos 0 Sample.t1); reflexivity.
  - apply (Hrejected (mkArrival 1003 Rejected) []). reflexivity.
Defined.

Lemma sendMessage_missing_row_witness :
  let send := sendMessage Sample.toISOString Sample.u1 (Some "t1")
                          (units "  hello  ") in
  let a1 := mkArrival 1001 (Sample.inserted_message Sample.hello_user) in
  let a2 := mkArrival 1002 Sample.empty_answer in
  let a3 := mkArrival 1003 Sample.empty_answer in
  (let w' := fst (exec send [a1; a2] Sample.w_t1) in
   messages (state w') = [] /\
   threads (state w') = [Sample.t1; Sample.t2]) /\
  (exists w',
      exec send [a1; a2; a3] Sample.w_t1 = (w', Returned tt) /\
      state w' = state Sample.w_t1 /\
      trace w' = [CREATE_MESSAGE "t1" "u1" true (units "hello");
                  CREATE_MESSAGE "t1" "u1" false (units "hello");
                  UPDATE_THREAD_TIMESTAMP "t1"]) /\
  (exists w',
      exec send [a1; a2; mkArrival 1003 Rejected] Sample.w_t1
      = (w', Returned tt) /\
      error (state w') = Some "Failed to send message." /\
      messages (state w') = [] /\
      threads (state w') = [Sample.t1; Sample.t2] /\
      activeThreadId (state w') = Some "t1" /\
      isLoading (state w') = false).
Proof.
  intros send a1 a2 a3.
  destruct (sendMessage_missing_row
              Sample.toISOString Sample.u1 (Some "t1") (units "  hello  ")
              "u1" "t1" a1 a2 Sample.w_t1)
    as (Hkept & Hquiet & Hcaught);
    [reflexivity | reflexivity | discriminate
     | reflexivity | reflexivity | right; reflexivity |].
  split; [|split].
  - apply (Hkept []).
  - apply (Hquiet a3 [] (Gql.mkResponse None None)). reflexivity.
  - apply (Hcaught (mkArrival 1003 Rejected) []). reflexivity.
Defined.

(** A row is missing and the timestamp touch is rejected in transport: an
    error is set although neither insert reported one. *)
Lemma missing_row_and_rejected_touch_set_error :
  let a1 := mkArrival 1001 (Sample.inserted_message Sample.hello_user) in
  let a2 := mkArrival 1002 Sample.empty_answer in
  let a3 := mkArrival 1003 Rejected in
  let w' := fst (exec (sendMessage Sample.toISOString Sample.u1 (Some "t1")
                                   (units "  hello  "))
                      [a1; a2; a3] Sample.w_t1) in
  failed (outcome a1) = false /\
  failed (outcome a2) = false /\
  created_message (outcome a2) = None /\
  error (state Sample.w_t1) = None /\
  error (state w') = Some "Failed to send message." /\
  error (state w') <> error (state Sample.w_t1) /\
  messages (state w') = [] /\
  threads (state w') = [Sample.t1; Sample.t2].
Proof.
  vm_compute. repeat split. discriminate.
Qed.

(** A stale answer is not discarded: the user is signed in, the active
    thread changes to ["t1"] and then to ["t2"]; the answer for ["t2"]
    arrives, then the one for ["t1"].  The active thread is ["t2"] and the
    message set holds the messages of ["t1"]. *)
Lemma stale_answer_overwrites_messages :
  let m2 := run Sample.toLocaleString Sample.toISOString
                (mount Sample.u1 1000)
                [Click_selectThread "t1"; Click_selectThread "t2"] in
  let final := run Sample.toLocaleString Sample.toISOString m2
                   [Resolve 4 (mkArrival 2000
                                 (Sample.listed_messages [Sample.old_t2]));
                    Resolve 2 (mkArrival 3000
                                 (Sample.listed_messages [Sample.old_t1]))] in
  trace (world m2)
  = [GET_THREADS "u1";
     GET_THREADS "u1"; GET_MESSAGES "t1";
     GET_THREADS "u1"; GET_MESSAGES "t2"] /\
  pending_request 2 m2 = Some (GET_MESSAGES "t1") /\
  pending_request 4 m2 = Some (GET_MESSAGES "t2") /\
  activeThreadId (state (world final)) = Some "t2" /\
  messages (state (world final)) = [Sample.old_t1] /\
  messages (state (world final)) <> [Sample.old_t2].
Proof.
  vm_compute. repeat split. discriminate.
Qed.

Lemma last_answer_installs_messages_witness :
  let r1 := Gql.mkResponse
              (Some (Gql.mkData None (Some [Sample.old_t1]) None None)) None in
  let r2 := Gql.mkResponse
              (Some (Gql.mkData None (Some [Sample.old_t2]) None None)) None in
  let a1 := mkArrival 3000 (Fulfilled r1) in
  let a2 := mkArrival 2000 (Fulfilled r2) in
  let m := mount Sample.u1 1000 in
  let m1 := step Sample.toLocaleString Sample.toISOString m
                 (Click_selectThread "t1") in
  let m2 := step Sample.toLocaleString Sample.toISOString m1
                 (Click_selectThread "t2") in
  let k1 := pred (next_ticket m1) in
  let k2 := pred (next_ticket m2) in
  let in_order :=
    run Sample.toLocaleString Sample.toISOString m2
        [Resolve k1 a1; Resolve k2 a2] in
  let overtaken :=
    run Sample.toLocaleString Sample.toISOString m2
        [Resolve k2 a2; Resolve k1 a1] in
  pending_request k1 m2 = Some (GET_MESSAGES "t1") /\
  pending_request k2 m2 = Some (GET_MESSAGES "t2") /\
  k1 < k2 /\
  activeThreadId (state (world in_order)) = Some "t2" /\
  messages (state (world in_order)) = listed r2 /\
  activeThreadId (state (world overtaken)) = Some "t2" /\
  messages (state (world overtaken)) = listed r1.
Proof.
  intros r1 r2 a1 a2 m.
  apply (last_answer_installs_messages
           Sample.toLocaleString Sample.toISOString m "t1" "t2" a1 a2 r1 r2).
  - unfold tickets_fresh. vm_compute. repeat constructor.
  - vm_compute. reflexivity.
  - discriminate.
  - discriminate.
  - discriminate.
  - vm_compute. discriminate.
  - reflexivity.
  - reflexivity.
  - reflexivity.
  - reflexivity.
Defined.

(** * More of ChatManager *)

(** ** What [trim] removes *)

Lemma trimStart_split (s : jsstring) :
  exists pre,
    s = pre ++ trimStart s /\
    forallb is_white_space pre = true /\
    (forall c rest, trimStart s = c :: rest -> is_white_space c = false).
Proof.
  induction s as [|c s IH].
  - exists []. repeat split. discriminate.
  - simpl. destruct (is_white_space c) eqn:E.
    + destruct IH as (pre & E1 & E2 & E3).
      exists (c :: pre). simpl. rewrite E, E2. repeat split.
      * f_equal. exact E1.
      * exact E3.
    + exists []. repeat split. intros c' rest H. injection H as <- _. exact E.
Qed.

Lemma trimStart_all_white (s : jsstring) :
  forallb is_white_space s = true -> trimStart s = [].
Proof.
  induction s as [|c s IH]; simpl; [reflexivity|].
  intros H. apply andb_prop in H as [-> H]. auto.
Qed.

(** [trim s] is [s] without a run of white space at each end, and neither
    starts nor ends with white space. *)
Lemma trim_strips_outer_white_space (s : jsstring) :
  exists pre post,
    s = pre ++ trim s ++ post /\
    forallb is_white_space pre = true /\
    forallb is_white_space post = true /\
    (forall c rest, trim s = c :: rest -> is_white_space c = false) /\
    (forall c front, trim s = front ++ [c] -> is_white_space c = false).
Proof.
  unfold trim, trimEnd.
  destruct (trimStart_split s) as (pre & E1 & W1 & H1).
  destruct (trimStart_split (rev (trimStart s))) as (tsop & E2 & W2 & H2).
  set (core := trimStart (rev (trimStart s))) in *.
  assert (E3 : trimStart s = rev core ++ rev tsop).
  { rewrite <- (rev_involutive (trimStart s)), E2, rev_app_distr. reflexivity. }
  exists pre, (rev tsop). split; [|split; [|split; [|split]]].
  - rewrite <- E3. exact E1.
  - exact W1.
  - rewrite forallb_forall in *. intros x Hx. apply W2. apply in_rev. exact Hx.
  - intros c rest Hc.
    apply (H1 c (rest ++ rev tsop)). rewrite E3, Hc. reflexivity.
  - intros c front Hc.
    apply (f_equal (@rev N)) in Hc. rewrite rev_involutive, rev_app_distr in Hc.
    simpl in Hc. apply (H2 c (rev front) Hc).
Qed.

Lemma trim_all_white (s : jsstring) :
  forallb is_white_space s = true -> trim s = [].
Proof.
  intros H. unfold trim, trimEnd. rewrite (trimStart_all_white s H). reflexivity.
Qed.

Section FunctionsAlone.

Variable toLocaleString : Z -> string.
Variable toISOString : Z -> string.

(** ** The loaders and the thread creator, run alone *)

(** X1.  An error-free answer to the thread-list query replaces the thread
    list by the listed threads (by the empty list when the answer has no
    data or no list), clears the error field and ends with the loading flag
    false.  The selection is kept when the call was started with a thread
    selected or when the list is empty; when it was started with none and
    the list is not empty, the first listed thread becomes the active one,
    whatever the selection is by the time the answer arrives. *)
Theorem fetchThreads_success
    (user : option User.t) (active : option string) (uid : string)
    (a : Arrival) (rest : list Arrival) (r : Gql.Response) (w : World) :
  present (user_id_of user) = Some uid ->
  outcome a = Fulfilled r ->
  Gql.error r = None ->
  exists w',
    exec (fetchThreads user active) (a :: rest) w = (w', Returned tt) /\
    (Gql.data r = None -> threads (state w') = []) /\
    (forall d, Gql.data r = Some d ->
               threads (state w') = or_empty (Gql.threads d)) /\
    (present active <> None ->
     activeThreadId (state w') = activeThreadId (state w)) /\
    (threads (state w') = [] ->
     activeThreadId (state w') = activeThreadId (state w)) /\
    (forall first others,
        present active = None ->
        threads (state w') = first :: others ->
        activeThreadId (state w') = Some (Thread.id first)) /\
    messages (state w') = messages (state w) /\
    error (state w') = None /\
    isLoading (state w') = false /\
    trace w' = trace w ++ [GET_THREADS uid].
Proof.
  intros Hu Ha He. unfold fetchThreads. rewrite Hu.
  simpl. rewrite Ha. simpl. rewrite He. simpl.
  destruct (present active) as [tid|] eqn:Ep.
  - simpl. eexists. split; [reflexivity|]. simpl.
    split; [intros E; rewrite E; reflexivity|].
    split; [intros d E; rewrite E; reflexivity|].
    repeat split. discriminate.
  - destruct (or_empty (chain (Gql.data r) Gql.threads))
      as [|first others] eqn:El;
      simpl; (eexists; split; [reflexivity|]); simpl;
      (split; [intros E; rewrite E in El; simpl in El; congruence|]);
      (split; [intros d E; rewrite E in El; simpl in El; congruence|]).
    + repeat split; congruence.
    + repeat split; congruence.
Qed.

(** X2.  An error-free answer to the message query replaces the message
    set by the listed messages (by the empty list when the answer has no
    data or no list) and changes nothing else: in particular an error
    message shown before stays. *)
Theorem fetchMessages_success
    (active : option string) (tid : string)
    (a : Arrival) (rest : list Arrival) (r : Gql.Response) (w : World) :
  present active = Some tid ->
  outcome a = Fulfilled r ->
  Gql.error r = None ->
  exists w',
    exec (fetchMessages active) (a :: rest) w = (w', Returned tt) /\
    (Gql.data r = None -> messages (state w') = []) /\
    (forall d, Gql.data r = Some d ->
               messages (state w') = or_empty (Gql.messages d)) /\
    threads (state w') = threads (state w) /\
    activeThreadId (state w') = activeThreadId (state w) /\
    isLoading (state w') = isLoading (state w) /\
    error (state w') = error (state w) /\
    trace w' = trace w ++ [GET_MESSAGES tid].
Proof.
  intros Hp Ha He. unfold fetchMessages. rewrite Hp.
  simpl. rewrite Ha. simpl. rewrite He. simpl.
  eexists. split; [reflexivity|]. simpl.
  split; [intros E; rewrite E; reflexivity|].
  split; [intros d E; rewrite E; reflexivity|].
  repeat split.
Qed.

(** X3.  When the message query fails, by a reported error or in transport,
    the error field becomes "Failed to fetch messages." and the message set
    stays what it was; threads, selection and loading flag are untouched. *)
Theorem fetchMessages_failure
    (active : option string) (tid : string)
    (a : Arrival) (rest : list Arrival) (w : World) :
  present active = Some tid ->
  failed (outcome a) = true ->
  exists w',
    exec (fetchMessages active) (a :: rest) w = (w', Returned tt) /\
    error (state w') = Some "Failed to fetch messages." /\
    messages (state w') = messages (state w) /\
    threads (state w') = threads (state w) /\
    activeThreadId (state w') = activeThreadId (state w) /\
    isLoading (state w') = isLoading (state w) /\
    trace w' = trace w ++ [GET_MESSAGES tid].
Proof.
  intros Hp Hf. unfold fetchMessages. rewrite Hp. simpl.
  destruct (outcome a) as [r|]; simpl in *.
  - destruct (Gql.error r); [|discriminate]. simpl.
    eexists. split; [reflexivity|]. simpl. repeat split.
  - eexists. split; [reflexivity|]. simpl. repeat split.
Qed.

(** X4.  When the thread insert fails, by a reported error or in transport,
    [createThread] returns [null] with the error field set to "Failed to
    create thread."; threads, messages, selection and loading flag are as
    before. *)
Theorem createThread_failure
    (user : option User.t) (uid : string)
    (a : Arrival) (rest : list Arrival) (w : World) :
  present (user_id_of user) = Some uid ->
  failed (outcome a) = true ->
  exists w',
    exec (createThread toLocaleString user) (a :: rest) w
    = (w', Returned None) /\
    error (state w') = Some "Failed to create thread." /\
    threads (state w') = threads (state w) /\
    messages (state w') = messages (state w) /\
    activeThreadId (state w') = activeThreadId (state w) /\
    isLoading (state w') = isLoading (state w) /\
    trace w' = trace w ++ [CREATE_THREAD uid (toLocaleString (now w))].
Proof.
  intros Hu Hf. unfold createThread. rewrite Hu. simpl.
  destruct (outcome a) as [r|]; simpl in *.
  - destruct (Gql.error r); [|discriminate]. simpl.
    eexists. split; [reflexivity|]. simpl. repeat split.
  - eexists. split; [reflexivity|]. simpl. repeat split.
Qed.

(** X5.  An error-free answer that carries no created row makes
    [createThread] return [null] silently: no state field changes, no error
    is set, nothing is logged. *)
Theorem createThread_missing_row
    (user : option User.t) (uid : string)
    (a : Arrival) (rest : list Arrival) (r : Gql.Response) (w : World) :
  present (user_id_of user) = Some uid ->
  outcome a = Fulfilled r ->
  Gql.error r = None ->
  chain (Gql.data r) Gql.insert_threads_one = None ->
  exists w',
    exec (createThread toLocaleString user) (a :: rest) w
    = (w', Returned None) /\
    state w' = state w /\
    console w' = console w.
Proof.
  intros Hu Ha He Hr. unfold createThread. rewrite Hu. simpl.
  rewrite Ha. simpl. rewrite He. simpl. rewrite Hr. simpl.
  eexists. split; [reflexivity|]. simpl. split; reflexivity.
Qed.

(** X6.  [createThread] returns an id only when the gateway answered
    without error with a created row: the id is that row's, the row heads
    the thread list and is the active thread. *)
Theorem createThread_returns_only_created_id
    (user : option User.t) (arrivals : list Arrival) (w w' : World)
    (newId : string) :
  exec (createThread toLocaleString user) arrivals w
  = (w', Returned (Some newId)) ->
  exists uid a rest r d newThread,
    present (user_id_of user) = Some uid /\
    arrivals = a :: rest /\
    outcome a = Fulfilled r /\
    Gql.error r = None /\
    Gql.data r = Some d /\
    Gql.insert_threads_one d = Some newThread /\
    newId = Thread.id newThread /\
    threads (state w') = newThread :: threads (state w) /\
    activeThreadId (state w') = Some newId.
Proof.
  unfold createThread.
  destruct (present (user_id_of user)) as [uid|] eqn:Hu;
    [|simpl; intros H; discriminate].
  simpl. destruct arrivals as [|a rest]; [intros H; discriminate|].
  destruct (outcome a) as [r|] eqn:Ea; simpl; [|intros H; discriminate].
  destruct (Gql.error r) eqn:Ee; simpl; [intros H; discriminate|].
  destruct (Gql.data r) as [d|] eqn:Ed; simpl; [|intros H; discriminate].
  destruct (Gql.insert_threads_one d) as [newThread|] eqn:Ei; simpl;
    [|intros H; discriminate].
  intros H. injection H as <- <-.
  exists uid, a, rest, r, d, newThread. simpl. repeat split; assumption.
Qed.

(** X7.  Content made of white space only (or empty) is never sent: the
    call returns at once and the world is unchanged, signed in or not. *)
Theorem sendMessage_blank_content
    (user : option User.t) (active : option string) (content : jsstring) :
  forallb is_white_space content = true ->
  forall arrivals w,
    exec (sendMessage toISOString user active content) arrivals w
    = (w, Returned tt).
Proof.
  intros H arrivals w. unfold sendMessage.
  rewrite (trim_all_white content H).
  destruct (present (user_id_of user)), (present active); reflexivity.
Qed.

(** X8.  What [sendMessage] sends first is the typed content without the
    white space around it: the content is white space, then what is sent,
    then white space, and what is sent is not empty and neither starts nor
    ends with white space. *)
Theorem sendMessage_sends_stripped_content
    (user : option User.t) (active : option string) (content : jsstring)
    (uid tid : string) (w : World) :
  present (user_id_of user) = Some uid ->
  present active = Some tid ->
  trim content <> [] ->
  exists sent pre post,
    exec (sendMessage toISOString user active content) [] w
    = (issue (CREATE_MESSAGE tid uid true sent) w, Suspended) /\
    content = pre ++ sent ++ post /\
    forallb is_white_space pre = true /\
    forallb is_white_space post = true /\
    sent <> [] /\
    (forall c rest, sent = c :: rest -> is_white_space c = false) /\
    (forall c front, sent = front ++ [c] -> is_white_space c = false).
Proof.
  intros Hu Ht Hc.
  destruct (trim_strips_outer_white_space content)
    as (pre & post & E & Wp & Wq & Hh & Hl).
  exists (trim content), pre, post. split.
  - unfold sendMessage. rewrite Hu, Ht, (nonempty_true _ Hc). reflexivity.
  - repeat split; assumption.
Qed.

End FunctionsAlone.

(** ** The event loop, continued *)

Ltac machine :=
  cbn [start world current_user in_flight next_ticket
       rendered state threads messages activeThreadId isLoading error
       trace console now apply_action issue arrive set_clock at_ms outcome
       take_ticket ticket awaited resume Nat.eqb app
       negb orb andb fst snd initial_state act selectThread map].

Section EventLoop.

Variable toLocaleString : Z -> string.
Variable toISOString : Z -> string.

Lemma fetchThreads_resumes
    (user : option User.t) (active : option string) (uid : string) :
  present (user_id_of user) = Some uid ->
  exists k,
    fetchThreads user active =
      Do (setIsLoading true) (Do (setError None) (Await (GET_THREADS uid) k)) /\
    forall r, Gql.error r = None ->
      k (Fulfilled r) =
      Do (setThreads (fun _ => fetched r))
         (match present active, fetched r with
          | None, first :: _ =>
              Do (setActiveThreadId (Some (Thread.id first)))
                 (Do (setIsLoading false) (Ret tt))
          | _, _ => Do (setIsLoading false) (Ret tt)
          end).
Proof.
  intros H. unfold fetchThreads. rewrite H. eexists. split; [reflexivity|].
  intros r Hr. simpl. rewrite Hr. simpl. unfold fetched.
  destruct (present active);
    [|destruct (or_empty (chain (Gql.data r) Gql.threads))]; reflexivity.
Qed.

Lemma createThread_resumes (user : option User.t) (uid : string) :
  present (user_id_of user) = Some uid ->
  exists K : Z -> Outcome -> Prog unit,
    Prog_bind (createThread toLocaleString user) (fun _ => Ret tt) =
      NewDate (fun t => Await (CREATE_THREAD uid (toLocaleString t)) (K t)) /\
    forall t r newThread,
      Gql.error r = None ->
      chain (Gql.data r) Gql.insert_threads_one = Some newThread ->
      K t (Fulfilled r) =
      Do (setThreads (fun prev => newThread :: prev))
         (Do (setActiveThreadId (Some (Thread.id newThread)))
             (Do (setMessages (fun _ => [])) (Ret tt))).
Proof.
  intros H. unfold createThread. rewrite H. eexists. split; [reflexivity|].
  intros t r newThread Hr Hn. simpl. rewrite Hr. simpl. rewrite Hn.
  reflexivity.
Qed.

Lemma commit_idle (m : Machine) :
  committed m -> commit m = m.
Proof.
  destruct m as [[[ths ms cur ld er] tr co nw] user fl nt rd].
  unfold committed. simpl. intros ->. unfold commit. machine.
  rewrite !same_dep_refl. reflexivity.
Qed.

Lemma start_fetchThreads_keeps
    (user : option User.t) (active : option string) (m : Machine) :
  threads (state (world (start (fetchThreads user active) m)))
  = threads (state (world m)) /\
  activeThreadId (state (world (start (fetchThreads user active) m)))
  = activeThreadId (state (world m)).
Proof.
  unfold fetchThreads.
  destruct (present (user_id_of user)); split; reflexivity.
Qed.

Lemma start_fetchMessages_keeps (active : option string) (m : Machine) :
  threads (state (world (start (fetchMessages active) m)))
  = threads (state (world m)) /\
  activeThreadId (state (world (start (fetchMessages active) m)))
  = activeThreadId (state (world m)).
Proof.
  unfold fetchMessages. destruct (present active); split; reflexivity.
Qed.

Lemma commit_keeps_selection (m : Machine) :
  threads (state (world (commit m))) = threads (state (world m)) /\
  activeThreadId (state (world (commit m)))
  = activeThreadId (state (world m)).
Proof.
  unfold commit. cbn [world].
  repeat match goal with
         | |- context [if ?b then _ else _] => destruct b
         | |- context [match present ?v with _ => _ end] =>
             destruct (present v)
         end;
    repeat match goal with
           | |- context [start (fetchMessages ?a) ?x] =>
               destruct (start_fetchMessages_keeps a x) as [-> ->]
           | |- context [start (fetchThreads ?u ?a) ?x] =>
               destruct (start_fetchThreads_keeps u a x) as [-> ->]
           end;
    split; reflexivity.
Qed.

(** X9.  Selecting the thread that is already active does nothing: no
    state change and no request, the effects do not run again. *)
Theorem select_active_thread_again (m : Machine) (T : string) :
  committed m ->
  activeThreadId (state (world m)) = Some T ->
  step toLocaleString toISOString m (Click_selectThread T) = m.
Proof.
  intros Hc Ha.
  destruct m as [[[ths ms cur ld er] tr co nw] user fl nt rd].
  unfold committed in Hc. simpl in Hc, Ha. subst rd cur.
  unfold step, handle, selectThread, commit. cbn.
  rewrite !same_dep_refl, String.eqb_refl. cbn. reflexivity.
Qed.

(** X10.  First load of a signed-in user with at least one thread: the
    answer to the thread-list query installs the list and selects its first
    thread, which sends the thread-list query once more and the message
    query for that thread.  The second list answer replaces the list and
    keeps the selection; the message answer installs the messages.  Then
    nothing is pending: three requests were sent in all. *)
Theorem first_load_settles
    (user : option User.t) (uid : string) (t0 : Z)
    (a0 a1 a2 : Arrival) (r0 r1 r2 : Gql.Response)
    (first : Thread.t) (others : list Thread.t) :
  present (user_id_of user) = Some uid ->
  outcome a0 = Fulfilled r0 -> Gql.error r0 = None ->
  fetched r0 = first :: others ->
  Thread.id first <> "" ->
  outcome a1 = Fulfilled r1 -> Gql.error r1 = None ->
  outcome a2 = Fulfilled r2 -> Gql.error r2 = None ->
  let m1 := step toLocaleString toISOString (mount user t0) (Resolve 0 a0) in
  let m2 := step toLocaleString toISOString m1 (Resolve 1 a1) in
  let m3 := step toLocaleString toISOString m2 (Resolve 2 a2) in
  threads (state (world m1)) = first :: others /\
  activeThreadId (state (world m1)) = Some (Thread.id first) /\
  trace (world m1)
  = [GET_THREADS uid; GET_THREADS uid; GET_MESSAGES (Thread.id first)] /\
  map ticket (in_flight m1) = [1; 2] /\
  threads (state (world m2)) = fetched r1 /\
  activeThreadId (state (world m2)) = Some (Thread.id first) /\
  messages (state (world m3)) = listed r2 /\
  activeThreadId (state (world m3)) = Some (Thread.id first) /\
  isLoading (state (world m3)) = false /\
  error (state (world m3)) = None /\
  trace (world m3) = trace (world m1) /\
  in_flight m3 = [].
Proof.
  intros Hu E0 G0 L0 Hid E1 G1 E2 G2 m1 m2 m3.
  assert (Hp := Hu).
  destruct (fetchThreads_resumes user None uid Hu) as (k0 & F0 & K0).
  destruct (fetchThreads_resumes user (Some (Thread.id first)) uid Hu)
    as (k1 & F1 & K1).
  destruct (fetchMessages_awaits (Thread.id first) Hid) as (k2 & F2 & K2).
  assert (Hf : present (Some (Thread.id first)) = Some (Thread.id first))
    by (apply present_nonempty; exact Hid).
  assert (M0 : mount user t0 =
    mkMachine
      (mkWorld (mkState [] [] None true None) [GET_THREADS uid] [] t0)
      user [mkPending 0 (GET_THREADS uid) k0] 1
      (Some (user_id_of user, None))).
  { unfold mount, commit. machine. rewrite Hp, F0. machine.
    unfold fetchMessages. change (present None) with (@None string).
    machine. reflexivity. }
  assert (M1 : m1 =
    mkMachine
      (mkWorld (mkState (first :: others) [] (Some (Thread.id first)) true None)
               [GET_THREADS uid; GET_THREADS uid;
                GET_MESSAGES (Thread.id first)] [] (at_ms a0))
      user
      [mkPending 1 (GET_THREADS uid) k1;
       mkPending 2 (GET_MESSAGES (Thread.id first)) k2]
      3 (Some (user_id_of user, Some (Thread.id first)))).
  { subst m1. rewrite M0. unfold step, handle. machine.
    rewrite E0, (K0 r0 G0), L0.
    change (present None) with (@None string). machine.
    unfold commit. machine. rewrite same_dep_refl.
    unfold same_dep. machine. rewrite Hp, F1, F2. machine.
    reflexivity. }
  clearbody m1. subst m1.
  assert (M2 : m2 =
    mkMachine
      (mkWorld (mkState (fetched r1) [] (Some (Thread.id first)) false None)
               [GET_THREADS uid; GET_THREADS uid;
                GET_MESSAGES (Thread.id first)] [] (at_ms a1))
      user
      [mkPending 2 (GET_MESSAGES (Thread.id first)) k2]
      3 (Some (user_id_of user, Some (Thread.id first)))).
  { subst m2. unfold step, handle. machine.
    rewrite E1, (K1 r1 G1), Hf. machine.
    unfold commit. machine. rewrite !same_dep_refl. machine. reflexivity. }
  clearbody m2. subst m2.
  assert (M3 : m3 =
    mkMachine
      (mkWorld (mkState (fetched r1) (listed r2) (Some (Thread.id first))
                        false None)
               [GET_THREADS uid; GET_THREADS uid;
                GET_MESSAGES (Thread.id first)] [] (at_ms a2))
      user [] 3 (Some (user_id_of user, Some (Thread.id first)))).
  { subst m3. unfold step, handle. machine.
    rewrite E2, (K2 r2 G2). machine.
    unfold commit. machine. rewrite !same_dep_refl. machine. reflexivity. }
  clearbody m3. subst m3.
  cbn. repeat split.
Qed.

(** X11.  A selection made while the first thread-list query is pending is
    overridden: that query was started with no thread selected, so its
    answer makes the first listed thread the active one. *)
Theorem first_load_overrides_selection
    (user : option User.t) (uid : string) (t0 : Z) (T : string)
    (a0 : Arrival) (r0 : Gql.Response)
    (first : Thread.t) (others : list Thread.t) :
  present (user_id_of user) = Some uid ->
  T <> "" ->
  outcome a0 = Fulfilled r0 -> Gql.error r0 = None ->
  fetched r0 = first :: others ->
  let m1 := step toLocaleString toISOString (mount user t0)
                 (Click_selectThread T) in
  let m2 := step toLocaleString toISOString m1 (Resolve 0 a0) in
  pending_request 0 m1 = Some (GET_THREADS uid) /\
  activeThreadId (state (world m1)) = Some T /\
  threads (state (world m2)) = first :: others /\
  activeThreadId (state (world m2)) = Some (Thread.id first).
Proof.
  intros Hu HT E0 G0 L0 m1 m2.
  destruct (fetchThreads_resumes user None uid Hu) as (k0 & F0 & K0).
  destruct (fetchThreads_resumes user (Some T) uid Hu) as (k1 & F1 & _).
  destruct (fetchMessages_awaits T HT) as (k2 & F2 & _).
  assert (M0 : mount user t0 =
    mkMachine
      (mkWorld (mkState [] [] None true None) [GET_THREADS uid] [] t0)
      user [mkPending 0 (GET_THREADS uid) k0] 1
      (Some (user_id_of user, None))).
  { unfold mount, commit. machine. rewrite Hu, F0. machine.
    unfold fetchMessages. change (present None) with (@None string).
    machine. reflexivity. }
  assert (M1 : m1 =
    mkMachine
      (mkWorld (mkState [] [] (Some T) true None)
               [GET_THREADS uid; GET_THREADS uid; GET_MESSAGES T] [] t0)
      user
      [mkPending 0 (GET_THREADS uid) k0; mkPending 1 (GET_THREADS uid) k1;
       mkPending 2 (GET_MESSAGES T) k2]
      3 (Some (user_id_of user, Some T))).
  { subst m1. rewrite M0. unfold step, handle. machine.
    unfold commit. machine. rewrite same_dep_refl. unfold same_dep. machine.
    rewrite Hu, F1, F2. machine. reflexivity. }
  clearbody m1. subst m1.
  split; [reflexivity|]. split; [reflexivity|].
  subst m2. unfold step.
  destruct (commit_keeps_selection
              (handle toLocaleString toISOString (Resolve 0 a0)
                 (mkMachine
                    (mkWorld (mkState [] [] (Some T) true None)
                       [GET_THREADS uid; GET_THREADS uid; GET_MESSAGES T]
                       [] t0)
                    user
                    [mkPending 0 (GET_THREADS uid) k0;
                     mkPending 1 (GET_THREADS uid) k1;
                     mkPending 2 (GET_MESSAGES T) k2]
                    3 (Some (user_id_of user, Some T)))))
    as [-> ->].
  unfold handle. machine. rewrite E0, (K0 r0 G0), L0.
  change (present None) with (@None string). machine.
  split; reflexivity.
Qed.

(** X12.  Clicking "new thread" sends the insert and changes nothing until
    it is answered.  The created row then heads the list and is selected,
    the message set is empty, and because the selection changed the thread
    list and the new thread's messages are fetched again (loading flag
    true, error cleared). *)
Theorem click_createThread_refetches
    (m : Machine) (uid : string) (a : Arrival) (r : Gql.Response)
    (newThread : Thread.t) :
  tickets_fresh m ->
  committed m ->
  present (user_id_of (current_user m)) = Some uid ->
  outcome a = Fulfilled r ->
  Gql.error r = None ->
  chain (Gql.data r) Gql.insert_threads_one = Some newThread ->
  Thread.id newThread <> "" ->
  activeThreadId (state (world m)) <> Some (Thread.id newThread) ->
  let n := next_ticket m in
  let m1 := step toLocaleString toISOString m Click_createThread in
  let m2 := step toLocaleString toISOString m1 (Resolve n a) in
  state (world m1) = state (world m) /\
  pending_request n m1
  = Some (CREATE_THREAD uid (toLocaleString (now (world m)))) /\
  threads (state (world m2)) = newThread :: threads (state (world m)) /\
  activeThreadId (state (world m2)) = Some (Thread.id newThread) /\
  messages (state (world m2)) = [] /\
  isLoading (state (world m2)) = true /\
  error (state (world m2)) = None /\
  trace (world m2)
  = trace (world m)
    ++ [CREATE_THREAD uid (toLocaleString (now (world m)));
        GET_THREADS uid; GET_MESSAGES (Thread.id newThread)] /\
  pending_request (S n) m2 = Some (GET_THREADS uid) /\
  pending_request (S (S n)) m2 = Some (GET_MESSAGES (Thread.id newThread)).
Proof.
  intros Hf Hc Hu Ea Er Hn Hid Hact n m1 m2.
  destruct (createThread_resumes (current_user m) uid Hu) as (K & FC & KC).
  destruct (fetchThreads_resumes (current_user m)
              (Some (Thread.id newThread)) uid Hu) as (k1 & F1 & _).
  destruct (fetchMessages_awaits (Thread.id newThread) Hid) as (k2 & F2 & _).
  destruct m as [[[ths ms cur ld er] tr co nw] user fl nt rd].
  unfold committed in Hc. unfold tickets_fresh in Hf.
  cbn [rendered current_user world state activeThreadId in_flight next_ticket]
    in Hc, Hf, Hu, Hact, FC, F1. subst rd.
  cbn [next_ticket] in n. subst n.
  set (q := CREATE_THREAD uid (toLocaleString nw)).
  set (p := mkPending nt q (K nw)).
  assert (Fresh : Forall (fun p => ticket p <> nt) fl).
  { eapply Forall_impl; [|exact Hf]. cbn. intros; lia. }
  assert (M1 : m1 =
    mkMachine (mkWorld (mkState ths ms cur ld er) (tr ++ [q]) co nw)
              user (fl ++ [p]) (S nt) (Some (user_id_of user, cur))).
  { subst m1. unfold step, handle.
    cbn [bind ret Monad_Prog current_user world state activeThreadId].
    rewrite FC. machine. apply commit_idle. reflexivity. }
  clearbody m1. subst m1.
  assert (M2 : m2 =
    mkMachine
      (mkWorld (mkState (newThread :: ths) [] (Some (Thread.id newThread))
                        true None)
               (((tr ++ [q]) ++ [GET_THREADS uid])
                  ++ [GET_MESSAGES (Thread.id newThread)]) co (at_ms a))
      user
      (((fl ++ []) ++ [mkPending (S nt) (GET_THREADS uid) k1])
         ++ [mkPending (S (S nt)) (GET_MESSAGES (Thread.id newThread)) k2])
      (S (S (S nt)))
      (Some (user_id_of user, Some (Thread.id newThread)))).
  { subst m2. unfold step, handle. cbn [in_flight].
    rewrite (take_ticket_found nt fl [] p Fresh eq_refl).
    subst p. machine. rewrite Ea, (KC nw r newThread Er Hn). machine.
    unfold commit. machine.
    rewrite same_dep_refl, (same_dep_false _ _ Hact). machine.
    rewrite Hu, F1, F2. machine. reflexivity. }
  clearbody m2. subst m2.
  assert (Fresh1 : Forall (fun p => ticket p <> S nt) (fl ++ [])).
  { rewrite app_nil_r. eapply Forall_impl; [|exact Hf]. cbn. intros; lia. }
  assert (Fresh2 : Forall (fun p => ticket p <> S (S nt))
                     ((fl ++ []) ++ [mkPending (S nt) (GET_THREADS uid) k1])).
  { apply Forall_app. split.
    - rewrite app_nil_r. eapply Forall_impl; [|exact Hf]. cbn. intros; lia.
    - constructor; [cbn; lia|constructor]. }
  cbn [world state threads messages activeThreadId isLoading error trace].
  repeat split.
  - unfold pending_request. cbn [in_flight].
    rewrite (take_ticket_found nt fl [] p Fresh eq_refl). reflexivity.
  - rewrite <- !app_assoc. reflexivity.
  - unfold pending_request. cbn [in_flight]. rewrite <- app_assoc.
    cbn [app].
    rewrite (take_ticket_found
               (S nt) (fl ++ [])
               [mkPending (S (S nt)) (GET_MESSAGES (Thread.id newThread)) k2]
               (mkPending (S nt) (GET_THREADS uid) k1) Fresh1 eq_refl).
    reflexivity.
  - unfold pending_request. cbn [in_flight].
    rewrite (take_ticket_found
               (S (S nt)) _ []
               (mkPending (S (S nt)) (GET_MESSAGES (Thread.id newThread)) k2)
               Fresh2 eq_refl).
    reflexivity.
Qed.

(** *** Reachable machines *)

Lemma take_ticket_Forall (P : Pending -> Prop) (n : nat) (l : list Pending)
    (p : Pending) (rest : list Pending) :
  Forall P l -> take_ticket n l = Some (p, rest) -> P p /\ Forall P rest.
Proof.
  intros H. revert p rest. induction H as [|x l Hx Hl IH]; intros p rest.
  - discriminate.
  - cbn. destruct (Nat.eqb (ticket x) n).
    + intros E. injection E as <- <-. split; assumption.
    + destruct (take_ticket n l) as [[p' rest']|]; [|discriminate].
      intros E. injection E as <- <-.
      destruct (IH p' rest' eq_refl) as [Hp Hr].
      split; [assumption|constructor; assumption].
Qed.


Lemma start_bookkeeping (p : Prog unit) :
  forall m,
    tickets_fresh m ->
    tickets_fresh (start p m) /\
    current_user (start p m) = current_user m /\
    rendered (start p m) = rendered m.
Proof.
  induction p as [r| |a k IH|k H|q k H]; intros m Hm; cbn [start].
  - repeat split; assumption.
  - repeat split; assumption.
  - destruct (IH (mkMachine (apply_action a (world m)) (current_user m)
                            (in_flight m) (next_ticket m) (rendered m)) Hm)
      as (H1 & H2 & H3).
    repeat split; assumption.
  - apply H. exact Hm.
  - repeat split. unfold tickets_fresh in *. cbn.
    apply Forall_app. split.
    + eapply Forall_impl; [|exact Hm]. cbn. intros; lia.
    + constructor; [cbn; lia|constructor].
Qed.

Lemma effects_bookkeeping
    (b1 b2 : bool) (o : option string) (P Q : Prog unit) (m : Machine) :
  tickets_fresh m ->
  tickets_fresh
    (if b2
     then start Q (if b1 then match o with Some _ => start P m | None => m end
                   else m)
     else (if b1 then match o with Some _ => start P m | None => m end
           else m)) /\
  current_user
    (if b2
     then start Q (if b1 then match o with Some _ => start P m | None => m end
                   else m)
     else (if b1 then match o with Some _ => start P m | None => m end
           else m))
  = current_user m.
Proof.
  intros Hm.
  destruct (start_bookkeeping P m Hm) as (FP & UP & _).
  destruct (start_bookkeeping Q m Hm) as (FQ & UQ & _).
  destruct (start_bookkeeping Q (start P m) FP) as (FPQ & UPQ & _).
  destruct b1, b2, o; split; try assumption; try reflexivity; congruence.
Qed.

Lemma commit_well_formed (m : Machine) :
  tickets_fresh m -> tickets_fresh (commit m) /\ committed (commit m).
Proof.
  intros Hm.
  destruct (commit_keeps_selection m) as [_ Ha].
  unfold committed. rewrite Ha. clear Ha.
  unfold commit. cbn [rendered current_user].
  match goal with
  | |- tickets_fresh (mkMachine (world ?X) _ _ _ _) /\ _ =>
      assert (H : tickets_fresh X /\ current_user X = current_user m)
        by (apply effects_bookkeeping; exact Hm)
  end.
  destruct H as [F U]. split; [exact F|]. rewrite U. reflexivity.
Qed.

Lemma handle_fresh (e : Event) (m : Machine) :
  tickets_fresh m -> tickets_fresh (handle toLocaleString toISOString e m).
Proof.
  intros Hm. destruct e as [u|t| |threadId|content|n a]; cbn [handle].
  - exact Hm.
  - exact Hm.
  - apply start_bookkeeping. exact Hm.
  - apply start_bookkeeping. exact Hm.
  - apply start_bookkeeping. exact Hm.
  - destruct (take_ticket n (in_flight m)) as [[p rest]|] eqn:Et; [|exact Hm].
    apply start_bookkeeping.
    destruct (take_ticket_Forall _ n _ p rest Hm Et) as [_ Hr]. exact Hr.
Qed.

(** Whatever happened since the component was mounted, pending tickets
    are distinct from the ones to come and the last render saw the current
    user and selection. *)
Lemma reachable_well_formed
    (user : option User.t) (t0 : Z) (events : list Event) :
  tickets_fresh (run toLocaleString toISOString (mount user t0) events) /\
  committed (run toLocaleString toISOString (mount user t0) events).
Proof.
  assert (H0 : tickets_fresh (mount user t0) /\ committed (mount user t0)).
  { unfold mount. apply commit_well_formed. constructor. }
  unfold run. revert H0. generalize (mount user t0) as m.
  induction events as [|e events IH]; intros m H0; cbn [fold_left].
  - exact H0.
  - apply IH. unfold step. apply commit_well_formed, handle_fresh, H0.
Qed.

(** *** Signed out *)

Lemma start_quiet (p : Prog unit) :
  quiet p -> forall m, signed_out m -> signed_out (start p m).
Proof.
  induction 1; intros m Hm; cbn [start]; try assumption;
    apply IHquiet; destruct Hm as (H1 & H2 & H3 & H4 & H5);
    repeat split; assumption.
Qed.

Lemma fetchMessages_quiet (active : option string) (m : Machine) :
  signed_out m -> signed_out (start (fetchMessages active) m).
Proof.
  intros Hm. unfold fetchMessages.
  destruct (present active) as [tid|].
  - destruct Hm as (H1 & H2 & H3 & H4 & H5).
    cbn. repeat split; try assumption.
    + cbn. rewrite forallb_app, H4. reflexivity.
    + apply Forall_app. split; [assumption|].
      constructor; [|constructor]. cbn.
      intros [r|]; cbn.
      * destruct (Gql.error r); cbn; repeat constructor.
      * repeat constructor.
  - apply start_quiet; [repeat constructor|assumption].
Qed.

Lemma commit_signed_out (m : Machine) :
  signed_out m -> signed_out (commit m).
Proof.
  intros Hm. assert (Hu := proj1 Hm). unfold commit. rewrite Hu.
  match goal with
  | |- signed_out (mkMachine (world ?x) _ _ _ _) =>
      assert (Hx : signed_out x)
  end.
  { destruct (match rendered m with Some (_, t) => _ | None => true end);
      destruct (_ || _); try assumption;
      apply fetchMessages_quiet; assumption. }
  destruct Hx as (H1 & H2 & H3 & H4 & H5). repeat split; assumption.
Qed.

Lemma handle_signed_out (e : Event) (m : Machine) :
  stays_signed_out e -> signed_out m ->
  signed_out (handle toLocaleString toISOString e m).
Proof.
  intros He Hm. assert (Hm' := Hm).
  destruct Hm' as (H1 & H2 & H3 & H4 & H5).
  destruct e as [u|t| |threadId|content|n a]; cbn [handle stays_signed_out] in *.
  - repeat split; assumption.
  - repeat split; assumption.
  - unfold createThread. rewrite H1. exact Hm.
  - cbn. repeat split; assumption.
  - unfold sendMessage. rewrite H1. exact Hm.
  - destruct (take_ticket n (in_flight m)) as [[p rest]|] eqn:Et; [|exact Hm].
    destruct (take_ticket_Forall _ n _ p rest H5 Et) as [Hp Hr].
    apply start_quiet; [apply Hp|].
    repeat split; assumption.
Qed.

(** X13.  While nobody is signed in, whatever is clicked and whatever the
    gateway answers, the thread list stays empty, the loading flag stays
    true, and the only requests ever sent are message queries. *)
Theorem signed_out_never_loads
    (user : option User.t) (t0 : Z) (events : list Event) :
  present (user_id_of user) = None ->
  Forall stays_signed_out events ->
  let m := run toLocaleString toISOString (mount user t0) events in
  threads (state (world m)) = [] /\
  isLoading (state (world m)) = true /\
  forallb is_GET_MESSAGES (trace (world m)) = true.
Proof.
  intros Hu Hev m.
  assert (H0 : signed_out (mount user t0)).
  { unfold mount. apply commit_signed_out. repeat split; try assumption.
    constructor. }
  assert (H : signed_out m).
  { subst m. unfold run. revert H0. generalize (mount user t0) as m0.
    induction Hev as [|e events He Hev IH]; intros m0 H0; cbn [fold_left].
    - exact H0.
    - apply IH. unfold step. apply commit_signed_out, handle_signed_out;
        assumption. }
  destruct H as (_ & H2 & H3 & H4 & _). repeat split; assumption.
Qed.
End EventLoop.

(** ** Concrete runs of the above *)

Lemma fetchThreads_success_witness :
  let a := mkArrival 1001
             (Sample.answer
                (Gql.mkData (Some [Sample.t1; Sample.t2]) None None None)) in
  let w' := fst (exec (fetchThreads Sample.u1 None) [a] Sample.w_fresh) in
  threads (state w') = [Sample.t1; Sample.t2] /\
  activeThreadId (state w') = Some "t1" /\
  error (state w') = None /\
  isLoading (state w') = false.
Proof.
  intros a w'.
  destruct (fetchThreads_success
              Sample.u1 None "u1" a []
              (Gql.mkResponse
                 (Some (Gql.mkData (Some [Sample.t1; Sample.t2])
                                   None None None))
                 None)
              Sample.w_fresh)
    as (w1 & He & _ & Hd & _ & _ & Hsel & _ & Herr & Hload & _);
    [reflexivity | reflexivity | reflexivity |].
  subst w'. rewrite He. cbn [fst].
  assert (Hl : threads (state w1) = [Sample.t1; Sample.t2])
    by (apply (Hd (Gql.mkData (Some [Sample.t1; Sample.t2]) None None None));
        reflexivity).
  split; [exact Hl|]. split; [|split; assumption].
  apply (Hsel Sample.t1 [Sample.t2]); [reflexivity|exact Hl].
Defined.

Lemma fetchMessages_success_witness :
  let a := mkArrival 1001 (Sample.listed_messages [Sample.old_t1]) in
  let w := mkWorld (mkState [Sample.t1] [] (Some "t1") false
                            (Some "Failed to fetch messages."))
                   [] [] 1000 in
  let w' := fst (exec (fetchMessages (Some "t1")) [a] w) in
  messages (state w') = [Sample.old_t1] /\
  error (state w') = Some "Failed to fetch messages.".
Proof.
  intros a w w'.
  destruct (fetchMessages_success
              (Some "t1") "t1" a []
              (Gql.mkResponse
                 (Some (Gql.mkData None (Some [Sample.old_t1]) None None))
                 None)
              w)
    as (w1 & He & _ & Hd & _ & _ & _ & Herr & _);
    [reflexivity | reflexivity | reflexivity |].
  subst w'. rewrite He. cbn [fst]. split; [|exact Herr].
  apply (Hd (Gql.mkData None (Some [Sample.old_t1]) None None)).
  reflexivity.
Defined.

Lemma fetchMessages_failure_witness :
  let w := mkWorld (mkState [Sample.t1] [Sample.old_t2] (Some "t1") false None)
                   [] [] 1000 in
  exists w',
    exec (fetchMessages (Some "t1")) [mkArrival 1001 Rejected] w
    = (w', Returned tt) /\
    error (state w') = Some "Failed to fetch messages." /\
    messages (state w') = [Sample.old_t2] /\
    threads (state w') = [Sample.t1] /\
    activeThreadId (state w') = Some "t1" /\
    isLoading (state w') = false /\
    trace w' = [GET_MESSAGES "t1"].
Proof.
  intros w.
  apply (fetchMessages_failure (Some "t1") "t1" (mkArrival 1001 Rejected) [] w);
    reflexivity.
Defined.

Lemma createThread_failure_witness :
  exists w',
    exec (createThread Sample.toLocaleString Sample.u1)
         [mkArrival 1001 Sample.refused] Sample.w_t1
    = (w', Returned None) /\
    error (state w') = Some "Failed to create thread." /\
    threads (state w') = [Sample.t1; Sample.t2] /\
    messages (state w') = [] /\
    activeThreadId (state w') = Some "t1" /\
    isLoading (state w') = false /\
    trace w' = [CREATE_THREAD "u1" "Jan 5, 3:45 PM"].
Proof.
  apply (createThread_failure
           Sample.toLocaleString Sample.u1 "u1"
           (mkArrival 1001 Sample.refused) [] Sample.w_t1);
    reflexivity.
Defined.

Lemma createThread_missing_row_witness :
  exists w',
    exec (createThread Sample.toLocaleString Sample.u1)
         [mkArrival 1001 Sample.empty_answer] Sample.w_t1
    = (w', Returned None) /\
    state w' = state Sample.w_t1 /\
    console w' = [].
Proof.
  apply (createThread_missing_row
           Sample.toLocaleString Sample.u1 "u1"
           (mkArrival 1001 Sample.empty_answer) []
           (Gql.mkResponse None None) Sample.w_t1);
    reflexivity.
Defined.

Lemma createThread_returns_only_created_id_witness :
  exists uid a rest r d newThread,
    present (user_id_of Sample.u1) = Some uid /\
    [mkArrival 1001 (Sample.inserted_thread Sample.t3)] = a :: rest /\
    outcome a = Fulfilled r /\
    Gql.error r = None /\
    Gql.data r = Some d /\
    Gql.insert_threads_one d = Some newThread /\
    "t3" = Thread.id newThread /\
    threads
      (state (fst (exec (createThread Sample.toLocaleString Sample.u1)
                        [mkArrival 1001 (Sample.inserted_thread Sample.t3)]
                        Sample.w_t1)))
    = newThread :: threads (state Sample.w_t1) /\
    activeThreadId
      (state (fst (exec (createThread Sample.toLocaleString Sample.u1)
                        [mkArrival 1001 (Sample.inserted_thread Sample.t3)]
                        Sample.w_t1)))
    = Some "t3".
Proof.
  apply (createThread_returns_only_created_id
           Sample.toLocaleString Sample.u1
           [mkArrival 1001 (Sample.inserted_thread Sample.t3)]
           Sample.w_t1).
  reflexivity.
Defined.

Lemma sendMessage_blank_content_witness :
  exec (sendMessage Sample.toISOString Sample.u1 (Some "t1")
                    [32; 9; 160; 10; 8232; 12288]%N)
       [mkArrival 1001 (Sample.inserted_message Sample.hello_user)]
       Sample.w_t1
  = (Sample.w_t1, Returned tt).
Proof.
  apply (sendMessage_blank_content
           Sample.toISOString Sample.u1 (Some "t1")
           [32; 9; 160; 10; 8232; 12288]%N).
  reflexivity.
Defined.

Lemma sendMessage_sends_stripped_content_witness :
  exists sent pre post,
    exec (sendMessage Sample.toISOString Sample.u1 (Some "t1")
                      (units "  hello  ")) [] Sample.w_t1
    = (issue (CREATE_MESSAGE "t1" "u1" true sent) Sample.w_t1, Suspended) /\
    units "  hello  " = pre ++ sent ++ post /\
    forallb is_white_space pre = true /\
    forallb is_white_space post = true /\
    sent <> [] /\
    (forall c rest, sent = c :: rest -> is_white_space c = false) /\
    (forall c front, sent = front ++ [c] -> is_white_space c = false).
Proof.
  apply (sendMessage_sends_stripped_content
           Sample.toISOString Sample.u1 (Some "t1") (units "  hello  ")
           "u1" "t1" Sample.w_t1);
    [reflexivity | reflexivity | discriminate].
Defined.

Lemma select_active_thread_again_witness :
  let m := step Sample.toLocaleString Sample.toISOString
                (mount Sample.u1 1000) (Click_selectThread "t1") in
  step Sample.toLocaleString Sample.toISOString m (Click_selectThread "t1")
  = m.
Proof.
  intros m.
  apply (select_active_thread_again
           Sample.toLocaleString Sample.toISOString m "t1").
  - vm_compute. reflexivity.
  - vm_compute. reflexivity.
Defined.

Lemma first_load_settles_witness :
  let r0 := Gql.mkResponse
              (Some (Gql.mkData (Some [Sample.t1; Sample.t2]) None None None))
              None in
  let r1 := Gql.mkResponse
              (Some (Gql.mkData (Some [Sample.t2; Sample.t1]) None None None))
              None in
  let r2 := Gql.mkResponse
              (Some (Gql.mkData None (Some [Sample.old_t1]) None None))
              None in
  let a0 := mkArrival 1001 (Fulfilled r0) in
  let a1 := mkArrival 1002 (Fulfilled r1) in
  let a2 := mkArrival 1003 (Fulfilled r2) in
  let m1 := step Sample.toLocaleString Sample.toISOString
                 (mount Sample.u1 1000) (Resolve 0 a0) in
  let m2 := step Sample.toLocaleString Sample.toISOString m1 (Resolve 1 a1) in
  let m3 := step Sample.toLocaleString Sample.toISOString m2 (Resolve 2 a2) in
  threads (state (world m1)) = Sample.t1 :: [Sample.t2] /\
  activeThreadId (state (world m1)) = Some (Thread.id Sample.t1) /\
  trace (world m1)
  = [GET_THREADS "u1"; GET_THREADS "u1";
     GET_MESSAGES (Thread.id Sample.t1)] /\
  map ticket (in_flight m1) = [1; 2] /\
  threads (state (world m2)) = fetched r1 /\
  activeThreadId (state (world m2)) = Some (Thread.id Sample.t1) /\
  messages (state (world m3)) = listed r2 /\
  activeThreadId (state (world m3)) = Some (Thread.id Sample.t1) /\
  isLoading (state (world m3)) = false /\
  error (state (world m3)) = None /\
  trace (world m3) = trace (world m1) /\
  in_flight m3 = [].
Proof.
  intros r0 r1 r2 a0 a1 a2.
  apply (first_load_settles
           Sample.toLocaleString Sample.toISOString Sample.u1 "u1" 1000
           a0 a1 a2 r0 r1 r2 Sample.t1 [Sample.t2]);
    try reflexivity.
  discriminate.
Defined.

Lemma first_load_overrides_selection_witness :
  let r0 := Gql.mkResponse
              (Some (Gql.mkData (Some [Sample.t1; Sample.t2]) None None None))
              None in
  let a0 := mkArrival 1001 (Fulfilled r0) in
  let m1 := step Sample.toLocaleString Sample.toISOString
                 (mount Sample.u1 1000) (Click_selectThread "t2") in
  let m2 := step Sample.toLocaleString Sample.toISOString m1 (Resolve 0 a0) in
  pending_request 0 m1 = Some (GET_THREADS "u1") /\
  activeThreadId (state (world m1)) = Some "t2" /\
  threads (state (world m2)) = Sample.t1 :: [Sample.t2] /\
  activeThreadId (state (world m2)) = Some (Thread.id Sample.t1).
Proof.
  intros r0 a0.
  apply (first_load_overrides_selection
           Sample.toLocaleString Sample.toISOString Sample.u1 "u1" 1000 "t2"
           a0 r0 Sample.t1 [Sample.t2]);
    try reflexivity.
  discriminate.
Defined.

Lemma click_createThread_refetches_witness :
  let m := mount Sample.u1 1000 in
  let r := Gql.mkResponse
             (Some (Gql.mkData None None (Some Sample.t3) None)) None in
  let a := mkArrival 1001 (Fulfilled r) in
  let n := next_ticket m in
  let m1 := step Sample.toLocaleString Sample.toISOString m
                 Click_createThread in
  let m2 := step Sample.toLocaleString Sample.toISOString m1 (Resolve n a) in
  state (world m1) = state (world m) /\
  pending_request n m1
  = Some (CREATE_THREAD "u1" (Sample.toLocaleString (now (world m)))) /\
  threads (state (world m2)) = Sample.t3 :: threads (state (world m)) /\
  activeThreadId (state (world m2)) = Some (Thread.id Sample.t3) /\
  messages (state (world m2)) = [] /\
  isLoading (state (world m2)) = true /\
  error (state (world m2)) = None /\
  trace (world m2)
  = trace (world m)
    ++ [CREATE_THREAD "u1" (Sample.toLocaleString (now (world m)));
        GET_THREADS "u1"; GET_MESSAGES (Thread.id Sample.t3)] /\
  pending_request (S n) m2 = Some (GET_THREADS "u1") /\
  pending_request (S (S n)) m2 = Some (GET_MESSAGES (Thread.id Sample.t3)).
Proof.
  intros m r a.
  apply (click_createThread_refetches
           Sample.toLocaleString Sample.toISOString m "u1" a r Sample.t3).
  - unfold tickets_fresh. vm_compute. repeat constructor.
  - vm_compute. reflexivity.
  - reflexivity.
  - reflexivity.
  - reflexivity.
  - reflexivity.
  - discriminate.
  - vm_compute. discriminate.
Defined.

Lemma signed_out_never_loads_witness :
  let events :=
    [Click_selectThread "t1";
     Click_createThread;
     Click_sendMessage (units "hello");
     Resolve 0 (mkArrival 1001 (Sample.listed_messages [Sample.old_t1]));
     UserData None;
     Click_selectThread "t2";
     Resolve 1 (mkArrival 1002 Rejected)] in
  let m := run Sample.toLocaleString Sample.toISOString
               (mount None 1000) events in
  threads (state (world m)) = [] /\
  isLoading (state (world m)) = true /\
  forallb is_GET_MESSAGES (trace (world m)) = true.
Proof.
  intros events.
  apply (signed_out_never_loads
           Sample.toLocaleString Sample.toISOString None 1000 events).
  - reflexivity.
  - subst events. repeat constructor.
Defined.

(** Signed out, two threads are selected in turn and both message queries
    are answered: two requests, both message queries, and the page still
    says loading. *)
Example signed_out_run :
  let m := run Sample.toLocaleString Sample.toISOString (mount None 1000)
               [Click_selectThread "t1";
                Resolve 0 (mkArrival 1001
                             (Sample.listed_messages [Sample.old_t1]));
                Click_selectThread "t2";
                Resolve 1 (mkArrival 1002 Rejected)] in
  trace (world m) = [GET_MESSAGES "t1"; GET_MESSAGES "t2"] /\
  messages (state (world m)) = [Sample.old_t1] /\
  error (state (world m)) = Some "Failed to fetch messages." /\
  isLoading (state (world m)) = true.
Proof. vm_compute. repeat split. Qed.

(** * ChatInterface *)

Module ChatInterfaceProperties.
Import ChatInterface.

Lemma Number_toString_inj (a b : Z) :
  Number_toString a = Number_toString b -> a = b.
Proof.
  unfold Number_toString. intros H.
  apply (f_equal DecimalString.NilZero.int_of_string) in H.
  assert (Hn : forall z, Z.to_int z <> Decimal.Pos Decimal.Nil /\
                         Z.to_int z <> Decimal.Neg Decimal.Nil).
  { intros [|p|p]; cbn; split; try discriminate;
      intros E; injection E as E;
      exact (DecimalPos.Unsigned.to_uint_nonnil p E). }
  rewrite !DecimalString.NilZero.isi in H by apply Hn.
  injection H as H. apply DecimalZ.to_int_inj. exact H.
Qed.

Lemma nonempty_false (v : jsstring) : nonempty v = false <-> v = [].
Proof. destruct v; split; intros H; try reflexivity; discriminate. Qed.

Lemma handleSendMessage_changes (now : Z) (s : State) :
  nonempty (trim (inputValue s)) = true -> handleSendMessage now s <> s.
Proof.
  unfold handleSendMessage. intros -> H. cbn [negb] in H.
  apply (f_equal (fun x => length (messages x))) in H. cbn in H.
  rewrite length_app in H. cbn in H. lia.
Qed.

(** X14.  The send button is disabled exactly when sending would change
    nothing: the input is empty or white space only. *)
Theorem send_disabled_iff_nothing_to_send (now : Z) (s : State) :
  send_disabled s = true <-> handleSendMessage now s = s.
Proof.
  unfold send_disabled.
  destruct (nonempty (trim (inputValue s))) eqn:E; cbn [negb]; split;
    intros H; try reflexivity; try discriminate.
  - exfalso. exact (handleSendMessage_changes now s E H).
  - unfold handleSendMessage. rewrite E. reflexivity.
Qed.

(** X15.  Sending a non-blank input appends exactly two messages, the
    user's and its echo, both carrying the input as typed (not trimmed) and
    different ids; it empties the input, and in the thread list it rewrites
    the last message and time of the threads with the active id, leaving
    every other thread, the order, the selection and the sidebar alone. *)
Theorem handleSendMessage_appends_echo (now : Z) (s : State) :
  trim (inputValue s) <> [] ->
  exists userMessage botMessage,
    messages (handleSendMessage now s)
    = messages s ++ [userMessage; botMessage] /\
    Message.content userMessage = inputValue s /\
    Message.content botMessage = inputValue s /\
    Message.isUser userMessage = true /\
    Message.isUser botMessage = false /\
    Message.id userMessage <> Message.id botMessage /\
    inputValue (handleSendMessage now s) = [] /\
    activeThreadId (handleSendMessage now s) = activeThreadId s /\
    sidebarOpen (handleSendMessage now s) = sidebarOpen s /\
    length (threads (handleSendMessage now s)) = length (threads s) /\
    (forall i thread,
        nth_error (threads s) i = Some thread ->
        (Thread.id thread = activeThreadId s ->
         nth_error (threads (handleSendMessage now s)) i
         = Some (Thread.mk (Thread.id thread) (Thread.title thread)
                           (inputValue s) now)) /\
        (Thread.id thread <> activeThreadId s ->
         nth_error (threads (handleSendMessage now s)) i = Some thread)).
Proof.
  intros H. unfold handleSendMessage.
  destruct (trim (inputValue s)) as [|c v] eqn:E; [congruence|]. cbn.
  do 2 eexists. split; [reflexivity|]. cbn.
  repeat split.
  - intros Hid. apply Number_toString_inj in Hid. lia.
  - apply length_map.
  - intros Hid. rewrite nth_error_map, H0. cbn.
    apply String.eqb_eq in Hid. rewrite Hid. reflexivity.
  - intros Hid. rewrite nth_error_map, H0. cbn.
    apply String.eqb_neq in Hid. rewrite Hid. reflexivity.
Qed.

(** X16.  Sending twice in a row sends once: the first send empties the
    input, so the second does nothing. *)
Theorem send_twice_sends_once (t1 t2 : Z) (s : State) :
  handleSendMessage t2 (handleSendMessage t1 s) = handleSendMessage t1 s.
Proof.
  unfold handleSendMessage at 2 3.
  destruct (negb (nonempty (trim (inputValue s)))) eqn:E.
  - unfold handleSendMessage. rewrite E. reflexivity.
  - reflexivity.
Qed.

Lemma NoDup_four_times (t t' : Z) :
  NoDup [t; t + 1; t'; t' + 1]%Z <-> (t + 2 <= t' \/ t' + 2 <= t)%Z.
Proof.
  split.
  - intros H.
    inversion H as [|x l H1 H2]; subst.
    inversion H2 as [|x l H3 H4]; subst.
    assert (t <> t')%Z by (intros E; apply H1; cbn; lia).
    assert (t <> t' + 1)%Z by (intros E; apply H1; cbn; lia).
    assert (t + 1 <> t')%Z by (intros E; apply H3; cbn; lia).
    lia.
  - intros H. repeat constructor; cbn; lia.
Qed.

(** X17.  Message ids are clock readings: two sends give four different ids
    exactly when their clock readings are at least two milliseconds apart;
    closer sends reuse an id. *)
Theorem two_sends_share_ids_when_close
    (t t' : Z) (v' : jsstring) (s : State) :
  trim (inputValue s) <> [] ->
  trim v' <> [] ->
  exists u1 b1 u2 b2,
    messages (handleSendMessage t' (setInputValue v' (handleSendMessage t s)))
    = messages s ++ [u1; b1; u2; b2] /\
    (NoDup (map Message.id [u1; b1; u2; b2])
     <-> (t + 2 <= t' \/ t' + 2 <= t)%Z).
Proof.
  intros H H'.
  assert (G : negb (nonempty (trim (inputValue s))) = false)
    by (destruct (trim (inputValue s)); [congruence|reflexivity]).
  assert (G' : negb (nonempty (trim v')) = false)
    by (destruct (trim v'); [congruence|reflexivity]).
  unfold handleSendMessage at 2. rewrite G.
  unfold setInputValue, handleSendMessage. cbn [inputValue]. rewrite G'.
  cbn [messages].
  do 4 eexists. split.
  - rewrite <- app_assoc. reflexivity.
  - cbn [map Message.id].
    change [Number_toString t; Number_toString (t + 1);
            Number_toString t'; Number_toString (t' + 1)]
      with (map Number_toString [t; t + 1; t'; t' + 1]%Z).
    rewrite <- NoDup_four_times. split.
    + apply NoDup_map_inv.
    + apply NoDup_map_NoDup_ForallPairs.
      intros a b _ _. apply Number_toString_inj.
Qed.

(** X18.  A key press in the input changes the state exactly when the key
    is Enter, Shift is not held and the input is not blank. *)
Theorem key_changes_state_iff
    (now : Z) (key : string) (shiftKey : bool) (s : State) :
  fst (handleKeyPress now key shiftKey s) <> s <->
  key = "Enter" /\ shiftKey = false /\ trim (inputValue s) <> [].
Proof.
  unfold handleKeyPress.
  destruct (String.eqb_spec key "Enter") as [->|Hk]; cbn.
  - destruct shiftKey; cbn.
    + split; [congruence|]. intros (_ & H & _). discriminate.
    + rewrite <- nonempty_false.
      destruct (nonempty (trim (inputValue s))) eqn:E; split.
      * intros _. repeat split. discriminate.
      * intros _. exact (handleSendMessage_changes now s E).
      * intros H. exfalso. apply H. unfold handleSendMessage.
        rewrite E. reflexivity.
      * intros (_ & _ & H). congruence.
  - split; [congruence|]. intros (H & _). contradiction.
Qed.

(** X19.  A new chat is shown at once: the new thread heads the list with
    the clock reading as id, it is the active thread, the header reads
    "New Chat", the message list is empty and the sidebar closed; the text
    being typed is kept. *)
Theorem createNewThread_is_shown (now : Z) (s : State) :
  header_title (createNewThread now s) = "New Chat" /\
  (exists newThread,
      threads (createNewThread now s) = newThread :: threads s /\
      activeThreadId (createNewThread now s) = Thread.id newThread /\
      Thread.id newThread = Number_toString now) /\
  messages (createNewThread now s) = [] /\
  inputValue (createNewThread now s) = inputValue s /\
  sidebarOpen (createNewThread now s) = false.
Proof.
  unfold createNewThread, header_title. cbn.
  rewrite String.eqb_refl. cbn. repeat split.
  eexists. repeat split.
Qed.

(** *** What every reachable page keeps *)

Lemma header_of_listed (s : State) :
  selection_listed s -> known_title (header_title s).
Proof.
  intros [(thread & Hin & Hid) Ht]. unfold header_title.
  destruct (find _ (threads s)) as [t|] eqn:Ef.
  - apply find_some in Ef as [Hin' _].
    rewrite Forall_forall in Ht. specialize (Ht t Hin').
    destruct Ht as [-> | ->]; [left|right]; reflexivity.
  - exfalso. apply (find_none _ _ Ef) in Hin.
    rewrite Hid, String.eqb_refl in Hin. discriminate.
Qed.

Lemma selection_listed_same_threads (s s' : State) :
  threads s' = threads s -> activeThreadId s' = activeThreadId s ->
  selection_listed s -> selection_listed s'.
Proof.
  intros Ht Ha. unfold selection_listed. rewrite Ht, Ha. auto.
Qed.

Lemma handleSendMessage_selection (now : Z) (s : State) :
  selection_listed s -> selection_listed (handleSendMessage now s).
Proof.
  intros Hs. unfold handleSendMessage.
  destruct (negb (nonempty (trim (inputValue s)))); [exact Hs|].
  destruct Hs as [(thread & Hin & Hid) Ht]. split; cbn.
  - eexists. split; [apply in_map; exact Hin|].
    cbn. destruct (Thread.id thread =? activeThreadId s)%string; exact Hid.
  - apply Forall_map. eapply Forall_impl; [|exact Ht]. cbn.
    intros t H. destruct (Thread.id t =? activeThreadId s)%string; exact H.
Qed.

Lemma clickThread_selection (thread : Thread.t) (s : State) :
  In thread (threads s) ->
  selection_listed s -> selection_listed (clickThread thread s).
Proof.
  intros Hin [_ Ht]. split; cbn; [|exact Ht].
  exists thread. split; [exact Hin|reflexivity].
Qed.

Lemma step_selection (now : Z) (e : Event) (s : State) :
  selection_listed s -> selection_listed (step now e s).
Proof.
  intros Hs. destruct e as [v| |key sh| |i|i key| | | |key]; cbn [step].
  - exact Hs.
  - apply handleSendMessage_selection, Hs.
  - unfold handleKeyPress. destruct (_ && _); cbn;
      [apply handleSendMessage_selection|]; exact Hs.
  - destruct Hs as [_ Ht]. split; cbn.
    + eexists. split; [left; reflexivity|reflexivity].
    + constructor; [right; reflexivity|exact Ht].
  - destruct (nth_error (threads s) i) as [thread|] eqn:E; [|exact Hs].
    apply clickThread_selection; [eapply nth_error_In; exact E|exact Hs].
  - destruct (nth_error (threads s) i) as [thread|] eqn:E; [|exact Hs].
    unfold keyDownThread. destruct (_ || _); cbn; [|exact Hs].
    apply clickThread_selection; [eapply nth_error_In; exact E|exact Hs].
  - exact Hs.
  - exact Hs.
  - destruct (sidebarOpen s); exact Hs.
  - destruct (_ && _); exact Hs.
Qed.

(** X20.  Whatever the user does, the active id names a thread of the list
    and the header shows that thread's title, "Welcome Chat" or "New Chat":
    the fallback title "Chat" never appears. *)
Theorem header_never_falls_back (t0 : Z) (events : list (Z * Event)) :
  let s := run events (initial_state t0) in
  (exists thread, In thread (threads s) /\
                  Thread.id thread = activeThreadId s) /\
  (header_title s = "Welcome Chat" \/ header_title s = "New Chat").
Proof.
  intros s.
  assert (H : selection_listed s).
  { subst s. unfold run.
    assert (H0 : selection_listed (initial_state t0)).
    { split; cbn.
      - eexists. split; [left; reflexivity|reflexivity].
      - repeat constructor. }
    revert H0. generalize (initial_state t0) as s0.
    induction events as [|[t e] events IH]; intros s0 H0; cbn [fold_left].
    - exact H0.
    - apply IH. cbn. apply step_selection, H0. }
  split; [exact (proj1 H)|exact (header_of_listed s H)].
Qed.

Lemma echo_log_app (l : list Message.t) (u b : Message.t) :
  echo_log l ->
  Message.isUser u = true -> Message.isUser b = false ->
  Message.content b = Message.content u ->
  trim (Message.content u) <> [] ->
  echo_log (l ++ [u; b]).
Proof.
  intros Hl Hu Hb Hc Ht. induction Hl; cbn.
  - constructor; try assumption. constructor.
  - constructor; assumption.
Qed.

Lemma echo_log_even (l : list Message.t) :
  echo_log l -> Nat.Even (length l).
Proof.
  induction 1 as [|u b rest _ _ _ _ _ [k Hk]]; cbn.
  - exists 0. reflexivity.
  - exists (S k). lia.
Qed.

Lemma step_echo_log (now : Z) (e : Event) (s : State) :
  echo_log (messages s) -> echo_log (messages (step now e s)).
Proof.
  assert (Hsend : forall t, echo_log (messages s) ->
                            echo_log (messages (handleSendMessage t s))).
  { intros t Hs. unfold handleSendMessage.
    destruct (nonempty (trim (inputValue s))) eqn:E; cbn; [|exact Hs].
    apply echo_log_app; try reflexivity; try assumption.
    cbn [Message.content]. intros Hn. rewrite Hn in E. discriminate. }
  intros Hs. destruct e as [v| |key sh| |i|i key| | | |key]; cbn [step].
  - exact Hs.
  - apply Hsend, Hs.
  - unfold handleKeyPress. destruct (_ && _); cbn; [apply Hsend|]; exact Hs.
  - constructor.
  - destruct (nth_error (threads s) i); exact Hs.
  - destruct (nth_error (threads s) i); [|exact Hs].
    unfold keyDownThread. destruct (_ || _); exact Hs.
  - exact Hs.
  - exact Hs.
  - destruct (sidebarOpen s); exact Hs.
  - destruct (_ && _); exact Hs.
Qed.

(** X21.  Whatever the user does, the message list is a sequence of pairs,
    a user message followed by its echo with the same non-blank content; its
    length is even. *)
Theorem messages_stay_echo_pairs (t0 : Z) (events : list (Z * Event)) :
  echo_log (messages (run events (initial_state t0))) /\
  Nat.Even (length (messages (run events (initial_state t0)))).
Proof.
  assert (H : echo_log (messages (run events (initial_state t0)))).
  { unfold run.
    assert (H0 : echo_log (messages (initial_state t0))) by constructor.
    revert H0. generalize (initial_state t0) as s0.
    induction events as [|[t e] events IH]; intros s0 H0; cbn [fold_left].
    - exact H0.
    - apply IH. cbn. apply step_echo_log, H0. }
  split; [exact H|exact (echo_log_even _ H)].
Qed.

(** X22.  The page renders nothing exactly when the effect redirects to
    "/auth"; the spinner and the chat page never redirect. *)
Theorem nothing_rendered_iff_redirected (auth : AuthenticationStatus) :
  (render auth = Nothing <-> redirect auth = Some "/auth") /\
  (render auth = Spinner -> redirect auth = None) /\
  (render auth = Page -> redirect auth = None).
Proof.
  unfold render, redirect.
  destruct (isLoading auth), (isAuthenticated auth); cbn;
    repeat split; intros; try reflexivity; try discriminate.
Qed.

Lemma before_at_no_at (s : jsstring) : ~ In 64%N (before_at s).
Proof.
  induction s as [|c s IH]; cbn; [tauto|].
  destruct (N.eqb_spec c 64); cbn; [tauto|].
  intros [H|H]; [congruence|contradiction].
Qed.

Lemma before_at_split (s : jsstring) :
  exists tail,
    s = before_at s ++ tail /\
    (tail = [] \/ exists tail', tail = 64%N :: tail').
Proof.
  induction s as [|c s (tail & IH & Ht)]; cbn.
  - exists []. split; [reflexivity|left; reflexivity].
  - destruct (N.eqb_spec c 64) as [->|Hc].
    + exists (64%N :: s). split; [reflexivity|].
      right. exists s. reflexivity.
    + exists tail. split; [cbn; f_equal; exact IH|exact Ht].
Qed.

(** X23.  The name shown in the sidebar is never empty.  It is the display
    name when that is not empty.  Otherwise, when there is an e-mail
    address that neither is empty nor starts with "@", it is the part of
    the address before the first "@" (the whole address when it has none);
    and it is "User" when there is no address, or the address is empty or
    starts with "@". *)
Theorem display_name_is_never_empty (user : option Profile.t) :
  display_name user <> [] /\
  (forall p name,
      user = Some p -> Profile.displayName p = Some name -> name <> [] ->
      display_name user = name) /\
  (chain user Profile.displayName = None \/
   chain user Profile.displayName = Some [] ->
   (chain user Profile.email = None -> display_name user = units "User") /\
   (forall mail,
       chain user Profile.email = Some mail ->
       mail = [] \/ (exists rest, mail = 64%N :: rest) ->
       display_name user = units "User") /\
   (forall mail c rest,
       chain user Profile.email = Some mail ->
       mail = c :: rest ->
       c <> 64%N ->
       exists tail,
         mail = display_name user ++ tail /\
         ~ In 64%N (display_name user) /\
         (tail = [] \/ exists tail', tail = 64%N :: tail'))).
Proof.
  unfold display_name. split; [|split].
  - destruct (chain user Profile.displayName) as [[|c n]|];
      try discriminate;
      destruct (option_map before_at (chain user Profile.email)) as [[|d m]|];
      discriminate.
  - intros p name -> Hn Hne. cbn. rewrite Hn.
    destruct name; [congruence|reflexivity].
  - intros H.
    assert (E : match chain user Profile.displayName with
                | Some (c :: name) => c :: name
                | _ =>
                    match option_map before_at (chain user Profile.email) with
                    | Some (c :: name) => c :: name
                    | _ => units "User"
                    end
                end
                = match option_map before_at (chain user Profile.email) with
                  | Some (c :: name) => c :: name
                  | _ => units "User"
                  end).
    { destruct H as [-> | ->]; reflexivity. }
    rewrite E. clear E H. split; [|split].
    + intros ->. reflexivity.
    + intros mail -> [-> | (rest & ->)]; reflexivity.
    + intros mail c rest -> -> Hc. cbn [option_map].
      destruct (before_at_split (c :: rest)) as (tail & Hs & Ht).
      pose proof (before_at_no_at (c :: rest)) as Hn.
      assert (Hb : before_at (c :: rest) = c :: before_at rest).
      { cbn. apply N.eqb_neq in Hc. rewrite Hc. reflexivity. }
      rewrite Hb in *.
      exists tail. split; [exact Hs|]. split; [exact Hn|exact Ht].
Qed.

(** *** Concrete runs *)

(** The welcome thread is active, the user types ["  hi "] and sends. *)
Definition typed_hi : State :=
  setInputValue (units "  hi ") (initial_state 1000).

Example send_hi :
  handleSendMessage 2000 typed_hi
  = mkState [Message.mk "2000" (units "  hi ") true 2000;
             Message.mk "2001" (units "  hi ") false 2000]
            []
            [Thread.mk "1" "Welcome Chat" (units "  hi ") 2000]
            "1" false.
Proof. reflexivity. Qed.

Lemma handleSendMessage_appends_echo_witness :
  exists userMessage botMessage,
    messages (handleSendMessage 2000 typed_hi)
    = [] ++ [userMessage; botMessage] /\
    Message.content userMessage = units "  hi " /\
    Message.content botMessage = units "  hi " /\
    Message.isUser userMessage = true /\
    Message.isUser botMessage = false /\
    Message.id userMessage <> Message.id botMessage /\
    inputValue (handleSendMessage 2000 typed_hi) = [] /\
    activeThreadId (handleSendMessage 2000 typed_hi) = "1" /\
    sidebarOpen (handleSendMessage 2000 typed_hi) = false /\
    length (threads (handleSendMessage 2000 typed_hi)) = 1 /\
    (forall i thread,
        nth_error (threads typed_hi) i = Some thread ->
        (Thread.id thread = "1" ->
         nth_error (threads (handleSendMessage 2000 typed_hi)) i
         = Some (Thread.mk (Thread.id thread) (Thread.title thread)
                           (units "  hi ") 2000)) /\
        (Thread.id thread <> "1" ->
         nth_error (threads (handleSendMessage 2000 typed_hi)) i
         = Some thread)).
Proof.
  apply (handleSendMessage_appends_echo 2000 typed_hi).
  discriminate.
Defined.

Lemma two_sends_share_ids_when_close_witness :
  exists u1 b1 u2 b2,
    messages (handleSendMessage 2001
                (setInputValue (units "again")
                   (handleSendMessage 2000 typed_hi)))
    = [] ++ [u1; b1; u2; b2] /\
    (NoDup (map Message.id [u1; b1; u2; b2])
     <-> (2000 + 2 <= 2001 \/ 2001 + 2 <= 2000)%Z).
Proof.
  apply (two_sends_share_ids_when_close 2000 2001 (units "again") typed_hi);
    discriminate.
Defined.

(** Two sends one millisecond apart: the echo of the first and the second
    user message share the id ["2001"]. *)
Example ids_collide :
  map Message.id
      (messages (handleSendMessage 2001
                   (setInputValue (units "again")
                      (handleSendMessage 2000 typed_hi))))
  = ["2000"; "2001"; "2001"; "2002"].
Proof. reflexivity. Qed.

Example display_names :
  display_name None = units "User" /\
  display_name (Some (Profile.mk (Some (units "Ada")) (Some (units "a@b.c"))))
  = units "Ada" /\
  display_name (Some (Profile.mk (Some []) (Some (units "ada@b.c"))))
  = units "ada" /\
  display_name (Some (Profile.mk None (Some (units "@b.c")))) = units "User".
Proof. repeat split. Qed.

End ChatInterfaceProperties.
